(** * The ext-proc request pipeline and its accounting

    A shallow embedding of two Go packages of the inference gateway
    extension:

    - [metrics] (pkg/ext-proc/metrics/metrics.go): the six Prometheus
      collectors, their one-time registration and the [Record...]
      functions;
    - [handlers] (pkg/ext-proc/handlers/server.go): [Server.Process], the
      per-stream loop that receives envelopes from Envoy, dispatches them
      to the phase handlers, records metrics and sends responses back.

    Conventions.  A Go [int] is a [Z]; a [float64] is the rational [Q] it
    denotes, and conversions and arithmetic round to the nearest float64 as
    IEEE 754 does (module [float64]); a [time.Time] is an instant in
    nanoseconds on one time line; a Go [error] keeps its kind and its gRPC
    code, not its message; a nil pointer or nil error is [None]; a panic is
    [None] where a function returns, and a step of its own in the loop.
    Logging through [klog.Errorf] and [klog.Infof] is a list of entries
    holding the format string; the verbosity-gated [klog.V(...)] traces,
    which touch no other state, are left out. *)

From Stdlib Require Import ZArith QArith Qround Qpower Ascii Lqa.
From stdpp Require Import base gmap strings list fin_maps.

Open Scope Z_scope.

(** ** google.golang.org/grpc/codes *)

Module codes.

Inductive Code :=
| OK | Canceled | Unknown | InvalidArgument | DeadlineExceeded | NotFound
| AlreadyExists | PermissionDenied | ResourceExhausted | FailedPrecondition
| Aborted | OutOfRange | Unimplemented | Internal | Unavailable | DataLoss
| Unauthenticated.

#[global] Instance Code_eq_dec : EqDecision Code.
Proof. solve_decision. Defined.

End codes.

(** ** Go errors, as far as [Process] tells them apart *)

Inductive error :=
| io_EOF                                  (* the sentinel io.EOF *)
| context_Canceled                        (* context.Canceled *)
| context_DeadlineExceeded                (* context.DeadlineExceeded *)
| status_error (c : codes.Code)           (* an error carrying a gRPC status *)
| plain_error.                            (* any other error value *)

#[global] Instance error_eq_dec : EqDecision error.
Proof. solve_decision. Defined.

(** ** google.golang.org/grpc/status *)

Module status.

(** [status.Code(err)] for a non-nil [err]: the code of a status error,
    [Unknown] for every other error. *)
Definition Code (err : error) : codes.Code :=
  match err with
  | status_error c => c
  | _ => codes.Unknown
  end.

(** [status.Error(c, msg)] and [status.Errorf(c, format, ...)]: an error with
    code [c], and nil when [c] is [OK]. *)
Definition Errorf (c : codes.Code) : option error :=
  match c with
  | codes.OK => None
  | _ => Some (status_error c)
  end.

End status.

(** ** unicode/utf8 *)

Module utf8.

Definition byte (a : ascii) : N := N_of_ascii a.

Definition within (lo hi x : N) : bool := (lo <=? x)%N && (x <=? hi)%N.

(** A continuation byte, 0x80 to 0xBF. *)
Definition cont (a : ascii) : bool := within 128 191 (byte a).

(** [utf8.ValidString(s)]: the bytes of [s] are a sequence of well-formed
    encodings, with no overlong form, no surrogate and nothing above
    U+10FFFF. *)
Fixpoint ValidString (s : string) : bool :=
  match s with
  | EmptyString => true
  | String a s1 =>
      let x := byte a in
      if (x <? 128)%N then ValidString s1
      else if within 194 223 x then
        match s1 with
        | String b s2 => cont b && ValidString s2
        | _ => false
        end
      else if within 224 239 x then
        match s1 with
        | String b (String c s3) =>
            within (if (x =? 224)%N then 160 else 128)%N
                   (if (x =? 237)%N then 159 else 191)%N (byte b)
            && cont c && ValidString s3
        | _ => false
        end
      else if within 240 244 x then
        match s1 with
        | String b (String c (String d s4)) =>
            within (if (x =? 240)%N then 144 else 128)%N
                   (if (x =? 244)%N then 143 else 191)%N (byte b)
            && cont c && cont d && ValidString s4
        | _ => false
        end
      else false
  end.

End utf8.

(** ** The type float64

    A finite float64 is the rational it denotes.  Every operation gives the
    float64 nearest to the exact result, ties going to the even mantissa
    (IEEE 754 binary64: 53 bits of mantissa, subnormals below 2^-1022).
    Nothing here comes near the largest float64, and overflow to an
    infinity is not modelled. *)

Module float64.

(** The integer part of the binary logarithm of [x > 0]. *)
Definition ilog2 (x : Q) : Z :=
  if Qle_bool 1 x then Z.log2 (Qfloor x) else - Z.log2_up (Qceiling (/ x)).

(** The integer nearest to [x], the even one of two that are as near. *)
Definition rint (x : Q) : Z :=
  let f := Qfloor x in
  match (x - inject_Z f ?= 1 # 2)%Q with
  | Lt => f
  | Gt => f + 1
  | Eq => if Z.even f then f else f + 1
  end.

(** The float64 nearest to [x > 0]: its 53-bit mantissa at the exponent of
    [x], or at the exponent of the subnormals. *)
Definition round_pos (x : Q) : Q :=
  let e := Z.max (ilog2 x) (-1022) in
  Qred (inject_Z (rint (x * 2 ^ (52 - e))) * 2 ^ (e - 52)).

(** The float64 nearest to [x]. *)
Definition round (x : Q) : Q :=
  match Qnum x with
  | Z0 => 0%Q
  | Zpos _ => round_pos x
  | Zneg _ => (- round_pos (- x))%Q
  end.

(** [float64(n)] for an integer [n] *)
Definition of_int (n : Z) : Q := round (inject_Z n).

(** [a + b] and [a / b] on float64 *)
Definition add (a b : Q) : Q := round (a + b).
Definition div (a b : Q) : Q := round (a / b).

End float64.

(** ** Package time *)

Module time.

(** Instants and durations, both in nanoseconds.  The zero [Time] is the
    instant [0]; a [Duration] is an int64. *)
Definition Time := Z.
Definition Duration := Z.

Definition zero : Time := 0.
Definition Second : Duration := 1000000000.
Definition minDuration : Duration := - 2 ^ 63.
Definition maxDuration : Duration := 2 ^ 63 - 1.

(** [t.After(u)] *)
Definition After (t u : Time) : bool := u <? t.

(** [t.Sub(u)]: the difference, saturated to the range of [Duration]. *)
Definition Sub (t u : Time) : Duration :=
  let d := t - u in
  if maxDuration <? d then maxDuration
  else if d <? minDuration then minDuration
  else d.

(** [d.Seconds()]: whole seconds plus the remaining nanoseconds over 1e9,
    in float64 arithmetic. *)
Definition Seconds (d : Duration) : Q :=
  let sec := Z.quot d Second in
  let nsec := Z.rem d Second in
  float64.add (float64.of_int sec)
    (float64.div (float64.of_int nsec) 1000000000%Q).

End time.

(** ** k8s.io/klog *)

Module klog.

Inductive Entry :=
| Errorf (format : string)
| Infof (format : string).

Definition Log := list Entry.

Definition is_error (e : Entry) : bool :=
  match e with Errorf _ => true | Infof _ => false end.

End klog.

(** ** Package metrics *)

Module metrics.

Definition InferenceModelComponent : string := "inference_model".

(** Every collector has the label names [model_name] and
    [target_model_name]; a child of a vector is addressed by the pair of
    their values. *)
Definition labelNames : list string := ["model_name"; "target_model_name"].

Record Opts := {
  Subsystem : string;
  Name : string;
  Help : string;
  Buckets : list Q
}.

Definition requestCounter_opts : Opts := {|
  Subsystem := InferenceModelComponent;
  Name := "request_total";
  Help := "Counter of inference model requests broken out for each model and target model.";
  Buckets := []
|}.

Definition requestLatencies_opts : Opts := {|
  Subsystem := InferenceModelComponent;
  Name := "request_duration_seconds";
  Help := "Inference model response latency distribution in seconds for each model and target model.";
  Buckets := [0.005; 0.025; 0.05; 0.1; 0.2; 0.4; 0.6; 0.8; 1.0; 1.25; 1.5; 2; 3;
    4; 5; 6; 8; 10; 15; 20; 30; 45; 60; 120; 180; 240; 300; 360; 480; 600;
    900; 1200; 1800; 2700; 3600]%Q
|}.

Definition requestSizes_opts : Opts := {|
  Subsystem := InferenceModelComponent;
  Name := "request_sizes";
  Help := "Inference model requests size distribution in bytes for each model and target model.";
  Buckets := [64; 128; 256; 512; 1024; 2048; 4096; 8192; 16384; 32768; 65536;
    131072; 262144; 524288; 1048576; 2097152; 4194304; 8388608;
    16777216; 33554432; 67108864; 134217728; 268435456; 536870912;
    1073741824]%Q
|}.

Definition responseSizes_opts : Opts := {|
  Subsystem := InferenceModelComponent;
  Name := "response_sizes";
  Help := "Inference model responses size distribution in bytes for each model and target model.";
  Buckets := [1; 2; 4; 8; 16; 32; 64; 128; 256; 512; 1024; 2048; 4096; 8192;
    16384; 32768; 65536; 131072; 262144; 524288; 1048576; 2097152; 4194304;
    8388608]%Q
|}.

Definition inputTokens_opts : Opts := {|
  Subsystem := InferenceModelComponent;
  Name := "input_tokens";
  Help := "Inference model input token count for requests in each model.";
  Buckets := [1; 8; 16; 32; 64; 128; 256; 512; 1024; 2048; 4096; 8192; 16384;
    32778; 65536; 131072; 262144; 524288; 1048576]%Q
|}.

Definition outputTokens_opts : Opts := {|
  Subsystem := InferenceModelComponent;
  Name := "output_tokens";
  Help := "Inference model output token count for requests in each model.";
  Buckets := [1; 8; 16; 32; 64; 128; 256; 512; 1024; 2048; 4096; 8192]%Q
|}.

(** The name a collector is registered under. *)
Definition fqName (o : Opts) : string := Subsystem o +:+ "_" +:+ Name o.

(** The values of a counter vector: one count per label pair. *)
Abbreviation CounterVec := (gmap (string * string) N).

(** The values of a histogram vector: per label pair, the samples observed
    so far, oldest first.  Count, sum and bucket counts derive from them. *)
Abbreviation HistogramVec := (gmap (string * string) (list Q)).

(** [Inc()] on the child of the label values [(m, t)] of a created counter
    vector: the child starts at zero when it is new. *)
Definition Inc (m t : string) (c : CounterVec) : CounterVec :=
  <[(m, t) := (N.succ (default 0%N (c !! (m, t))))]> c.

(** [Observe(v)] on the child of the label values [(m, t)] of a created
    histogram vector. *)
Definition Observe (m t : string) (v : Q) (h : HistogramVec) : HistogramVec :=
  <[(m, t) := default [] (h !! (m, t)) ++ [v]]> h.

(** What a scrape reads back. *)
Definition count (c : CounterVec) (m t : string) : N :=
  default 0%N (c !! (m, t)).

Definition samples (h : HistogramVec) (m t : string) : list Q :=
  default [] (h !! (m, t)).

Definition sample_count (h : HistogramVec) (m t : string) : nat :=
  length (samples h m t).

Definition sample_sum (h : HistogramVec) (m t : string) : Q :=
  foldr Qplus 0%Q (samples h m t).

(** Cumulative count of the bucket with upper bound [le]. *)
Definition bucket_count (h : HistogramVec) (m t : string) (le : Q) : nat :=
  length (filter (fun v => Qle_bool v le = true) (samples h m t)).

(** All samples of a vector, over every label pair. *)
Definition total_samples (h : HistogramVec) : nat :=
  map_fold (fun _ vs n => (length vs + n)%nat) 0%nat h.

Definition total_count (c : CounterVec) : N :=
  map_fold (fun _ v n => (v + n)%N) 0%N c.

(** The package's variables: the values of the six collectors, the
    [sync.Once] guarding registration, and the legacy registry (the names
    registered, in order).  The six vectors are created when they are
    registered, so they are created exactly when the [sync.Once] has
    fired. *)
Record State := {
  requestCounter : CounterVec;
  requestLatencies : HistogramVec;
  requestSizes : HistogramVec;
  responseSizes : HistogramVec;
  inputTokens : HistogramVec;
  outputTokens : HistogramVec;
  registerMetrics : bool;
  legacyregistry : list string
}.

Definition init : State := {|
  requestCounter := ∅;
  requestLatencies := ∅;
  requestSizes := ∅;
  responseSizes := ∅;
  inputTokens := ∅;
  outputTokens := ∅;
  registerMetrics := false;
  legacyregistry := []
|}.

Definition set_requestCounter (f : CounterVec -> CounterVec) (s : State) : State :=
  {| requestCounter := f (requestCounter s);
     requestLatencies := requestLatencies s;
     requestSizes := requestSizes s;
     responseSizes := responseSizes s;
     inputTokens := inputTokens s;
     outputTokens := outputTokens s;
     registerMetrics := registerMetrics s;
     legacyregistry := legacyregistry s |}.

Definition set_requestLatencies (f : HistogramVec -> HistogramVec) (s : State) : State :=
  {| requestCounter := requestCounter s;
     requestLatencies := f (requestLatencies s);
     requestSizes := requestSizes s;
     responseSizes := responseSizes s;
     inputTokens := inputTokens s;
     outputTokens := outputTokens s;
     registerMetrics := registerMetrics s;
     legacyregistry := legacyregistry s |}.

Definition set_requestSizes (f : HistogramVec -> HistogramVec) (s : State) : State :=
  {| requestCounter := requestCounter s;
     requestLatencies := requestLatencies s;
     requestSizes := f (requestSizes s);
     responseSizes := responseSizes s;
     inputTokens := inputTokens s;
     outputTokens := outputTokens s;
     registerMetrics := registerMetrics s;
     legacyregistry := legacyregistry s |}.

Definition set_responseSizes (f : HistogramVec -> HistogramVec) (s : State) : State :=
  {| requestCounter := requestCounter s;
     requestLatencies := requestLatencies s;
     requestSizes := requestSizes s;
     responseSizes := f (responseSizes s);
     inputTokens := inputTokens s;
     outputTokens := outputTokens s;
     registerMetrics := registerMetrics s;
     legacyregistry := legacyregistry s |}.

Definition set_inputTokens (f : HistogramVec -> HistogramVec) (s : State) : State :=
  {| requestCounter := requestCounter s;
     requestLatencies := requestLatencies s;
     requestSizes := requestSizes s;
     responseSizes := responseSizes s;
     inputTokens := f (inputTokens s);
     outputTokens := outputTokens s;
     registerMetrics := registerMetrics s;
     legacyregistry := legacyregistry s |}.

Definition set_outputTokens (f : HistogramVec -> HistogramVec) (s : State) : State :=
  {| requestCounter := requestCounter s;
     requestLatencies := requestLatencies s;
     requestSizes := requestSizes s;
     responseSizes := responseSizes s;
     inputTokens := inputTokens s;
     outputTokens := f (outputTokens s);
     registerMetrics := registerMetrics s;
     legacyregistry := legacyregistry s |}.

(** The options of the six collectors, in the order [Register] registers
    them. *)
Definition all_opts : list Opts :=
  [requestCounter_opts; requestLatencies_opts; requestSizes_opts;
   responseSizes_opts; inputTokens_opts; outputTokens_opts].

(** How often the collector of options [o] is in the registry [r]. *)
Definition registrations (o : Opts) (r : list string) : nat :=
  length (filter (fun n => n = fqName o) r).

(** [legacyregistry.MustRegister(c)]: adds the collector, and panics ([None])
    when one of that name is registered already. *)
Definition MustRegister (o : Opts) (r : list string) : option (list string) :=
  if decide (fqName o ∈ r) then None else Some (r ++ [fqName o]).

(** The function handed to [registerMetrics.Do]. *)
Definition registerAll (r : list string) : option (list string) :=
  r ← MustRegister requestCounter_opts r;
  r ← MustRegister requestLatencies_opts r;
  r ← MustRegister requestSizes_opts r;
  r ← MustRegister responseSizes_opts r;
  r ← MustRegister inputTokens_opts r;
  MustRegister outputTokens_opts r.

(** Registering the collectors of a list one after the other; [registerAll]
    does so for [all_opts]. *)
Fixpoint register_list (os : list Opts) (r : list string) : option (list string) :=
  match os with
  | [] => Some r
  | o :: os' => r' ← MustRegister o r; register_list os' r'
  end.

(** [Register()]: [registerMetrics.Do] runs the function on the first call
    only.  [None] is a panic of [MustRegister]. *)
Definition Register (s : State) : option State :=
  if registerMetrics s then Some s
  else
    r ← registerAll (legacyregistry s);
    Some {| requestCounter := requestCounter s;
            requestLatencies := requestLatencies s;
            requestSizes := requestSizes s;
            responseSizes := responseSizes s;
            inputTokens := inputTokens s;
            outputTokens := outputTokens s;
            registerMetrics := true;
            legacyregistry := r |}.

(** [n] calls of [Register] in a row. *)
Fixpoint Register_times (n : nat) (s : State) : option State :=
  match n with
  | O => Some s
  | S n' => s' ← Register s; Register_times n' s'
  end.

(** What [v.WithLabelValues(m, t)] hands out for a vector [v] of this
    package.  The vectors are created by their registration: until
    [Register] has run, the call returns a metric that records nothing,
    whatever the label values.  Afterwards it returns the child of the
    label values, and panics when one of them is not valid UTF-8. *)
Inductive Child := noop | child | panics.

Definition WithLabelValues (m t : string) (s : State) : Child :=
  if negb (registerMetrics s) then noop
  else if utf8.ValidString m && utf8.ValidString t then child
  else panics.

(** [RecordRequestCounter(modelName, targetModelName)]; [None] is a panic. *)
Definition RecordRequestCounter (modelName targetModelName : string) (s : State)
    : option State :=
  match WithLabelValues modelName targetModelName s with
  | noop => Some s
  | child => Some (set_requestCounter (Inc modelName targetModelName) s)
  | panics => None
  end.

(** [RecordRequestSizes(modelName, targetModelName, reqSize)] *)
Definition RecordRequestSizes (modelName targetModelName : string) (reqSize : Z)
    (s : State) : option State :=
  match WithLabelValues modelName targetModelName s with
  | noop => Some s
  | child =>
      Some (set_requestSizes
              (Observe modelName targetModelName (float64.of_int reqSize)) s)
  | panics => None
  end.

(** [RecordRequestLatencies(modelName, targetModelName, received, complete)]:
    the boolean result, the new collectors and the new log; [None] is a
    panic. *)
Definition RecordRequestLatencies (modelName targetModelName : string)
    (received complete : time.Time) (s : State) (log : klog.Log)
    : option (bool * State * klog.Log) :=
  if negb (time.After complete received) then
    Some (false, s,
          log ++ [klog.Errorf "request latency value error for model name %v, target model name %v: complete time %v is before received time %v"])
  else
    let elapsedSeconds := time.Seconds (time.Sub complete received) in
    match WithLabelValues modelName targetModelName s with
    | noop =>
        Some (true, s,
              log ++ [klog.Infof "Request has a receive time %v, and complete time %v"])
    | child =>
        Some (true,
              set_requestLatencies
                (Observe modelName targetModelName elapsedSeconds) s,
              log ++ [klog.Infof "Request has a receive time %v, and complete time %v"])
    | panics => None
    end.

(** [RecordResponseSizes(modelName, targetModelName, size)] *)
Definition RecordResponseSizes (modelName targetModelName : string) (size : Z)
    (s : State) : option State :=
  match WithLabelValues modelName targetModelName s with
  | noop => Some s
  | child =>
      Some (set_responseSizes
              (Observe modelName targetModelName (float64.of_int size)) s)
  | panics => None
  end.

(** [RecordInputTokens(modelName, targetModelName, size)] *)
Definition RecordInputTokens (modelName targetModelName : string) (size : Z)
    (s : State) : option State :=
  match WithLabelValues modelName targetModelName s with
  | noop => Some s
  | child =>
      Some (set_inputTokens
              (Observe modelName targetModelName (float64.of_int size)) s)
  | panics => None
  end.

(** [RecordOutputTokens(modelName, targetModelName, size)] *)
Definition RecordOutputTokens (modelName targetModelName : string) (size : Z)
    (s : State) : option State :=
  match WithLabelValues modelName targetModelName s with
  | noop => Some s
  | child =>
      Some (set_outputTokens
              (Observe modelName targetModelName (float64.of_int size)) s)
  | panics => None
  end.

(** [MonitorResponse(modelName, targetModelName, inputToken, outputToken)]:
    the input tokens first, then the output tokens. *)
Definition MonitorResponse (modelName targetModelName : string)
    (inputToken outputToken : Z) (s : State) : option State :=
  s ← match WithLabelValues modelName targetModelName s with
      | noop => Some s
      | child =>
          Some (set_inputTokens
                  (Observe modelName targetModelName (float64.of_int inputToken)) s)
      | panics => None
      end;
  match WithLabelValues modelName targetModelName s with
  | noop => Some s
  | child =>
      Some (set_outputTokens
              (Observe modelName targetModelName (float64.of_int outputToken)) s)
  | panics => None
  end.

End metrics.

(** ** Envoy's envelope types (ext_proc/v3 and type/v3) *)

Module envoyTypePb.

(** The HTTP status codes of [envoy.type.v3.StatusCode], by their number. *)
Definition StatusCode := Z.
Definition StatusCode_BadRequest : StatusCode := 400.
Definition StatusCode_TooManyRequests : StatusCode := 429.
Definition StatusCode_InternalServerError : StatusCode := 500.
Definition StatusCode_ServiceUnavailable : StatusCode := 503.

Record HttpStatus := { Code : StatusCode }.

End envoyTypePb.

Module extProcPb.

Record HttpHeaders := {
  Headers : list (string * string);
  Headers_EndOfStream : bool
}.

Record HttpBody := {
  Body : string;
  EndOfStream : bool
}.

Record HttpTrailers := { Trailers : list (string * string) }.

(** The [oneof] of a [ProcessingRequest]. *)
Inductive isProcessingRequest_Request :=
| ProcessingRequest_RequestHeaders (h : HttpHeaders)
| ProcessingRequest_RequestBody (b : HttpBody)
| ProcessingRequest_ResponseHeaders (h : HttpHeaders)
| ProcessingRequest_ResponseBody (b : HttpBody)
| ProcessingRequest_RequestTrailers (t : HttpTrailers)
| ProcessingRequest_ResponseTrailers (t : HttpTrailers).

(** An envelope from Envoy; [Request] is [None] when the [oneof] is unset. *)
Record ProcessingRequest := { Request : option isProcessingRequest_Request }.

(** Whether the envelope is one of the four variants [Process] handles. *)
Definition is_handled (req : ProcessingRequest) : bool :=
  match Request req with
  | Some (ProcessingRequest_RequestHeaders _)
  | Some (ProcessingRequest_RequestBody _)
  | Some (ProcessingRequest_ResponseHeaders _)
  | Some (ProcessingRequest_ResponseBody _) => true
  | _ => false
  end.

Record CommonResponse := {
  SetHeaders : list (string * string);
  BodyMutation : option string
}.

Record ImmediateResponse := { Status : envoyTypePb.HttpStatus }.

(** A [ProcessingResponse], by the variant of its [oneof]. *)
Inductive ProcessingResponse :=
| ProcessingResponse_RequestHeaders (r : CommonResponse)
| ProcessingResponse_RequestBody (r : CommonResponse)
| ProcessingResponse_ResponseHeaders (r : CommonResponse)
| ProcessingResponse_ResponseBody (r : CommonResponse)
| ProcessingResponse_ImmediateResponse (r : ImmediateResponse).

(** The immediate response of HTTP status [c]. *)
Definition immediate (c : envoyTypePb.StatusCode) : ProcessingResponse :=
  ProcessingResponse_ImmediateResponse {| Status := {| envoyTypePb.Code := c |} |}.

Definition is_immediate (r : option ProcessingResponse) : bool :=
  match r with
  | Some (ProcessingResponse_ImmediateResponse _) => true
  | _ => false
  end.

End extProcPb.

Module backend.

(** Modelled from the spec: the type [backend.Pod] of the field [TargetPod],
    declared in another package; the spec gives a backend the identity
    namespace, name and address.  [Process] never reads it. *)
Record Pod := {
  Namespace : string;
  Name : string;
  Address : string
}.

End backend.

(** ** Package handlers *)

Module handlers.

Import extProcPb.

(** Modelled from the spec: the types of the field [Response] and of its
    field [Usage], declared in another file of the package, with the two
    counts the spec names ([usage.prompt_tokens], [usage.completion_tokens])
    and [Process] reads.  Go's [int] has no absent value: a body without
    usage leaves both at zero. *)
Record Usage_t := {
  PromptTokens : Z;
  CompletionTokens : Z
}.

Record Response_t := { Usage : Usage_t }.

(** [RequestContext]: the state shared over the life time of one HTTP
    request. *)
Record RequestContext := {
  TargetPod : backend.Pod;
  Model : string;
  ResolvedTargetModel : string;
  RequestReceivedTimestamp : time.Time;
  ResponseCompleteTimestamp : time.Time;
  RequestSize : Z;
  Response : Response_t;
  ResponseSize : Z;
  ResponseComplete : bool
}.

(** [&RequestContext{}] *)
Definition RequestContext_zero : RequestContext := {|
  TargetPod := {| backend.Namespace := ""; backend.Name := ""; backend.Address := "" |};
  Model := "";
  ResolvedTargetModel := "";
  RequestReceivedTimestamp := time.zero;
  ResponseCompleteTimestamp := time.zero;
  RequestSize := 0;
  Response := {| Usage := {| PromptTokens := 0; CompletionTokens := 0 |} |};
  ResponseSize := 0;
  ResponseComplete := false
|}.

Definition set_RequestReceivedTimestamp (t : time.Time) (rc : RequestContext) : RequestContext :=
  {| TargetPod := TargetPod rc;
     Model := Model rc;
     ResolvedTargetModel := ResolvedTargetModel rc;
     RequestReceivedTimestamp := t;
     ResponseCompleteTimestamp := ResponseCompleteTimestamp rc;
     RequestSize := RequestSize rc;
     Response := Response rc;
     ResponseSize := ResponseSize rc;
     ResponseComplete := ResponseComplete rc |}.

Definition set_ResponseCompleteTimestamp (t : time.Time) (rc : RequestContext) : RequestContext :=
  {| TargetPod := TargetPod rc;
     Model := Model rc;
     ResolvedTargetModel := ResolvedTargetModel rc;
     RequestReceivedTimestamp := RequestReceivedTimestamp rc;
     ResponseCompleteTimestamp := t;
     RequestSize := RequestSize rc;
     Response := Response rc;
     ResponseSize := ResponseSize rc;
     ResponseComplete := ResponseComplete rc |}.

(** The transport side of one stream, [srv]: what the calls of one run of
    [Process] meet.  Iterations of the loop are numbered from 0. *)
Record ProcessServer := {
  (** at the [select] of iteration [i]: [Some e] when [ctx.Done()] is
      closed, with [e] the value of [ctx.Err()] *)
  ctx_Err : nat -> option error;
  (** the envelopes [Recv] returns, in order *)
  incoming : list ProcessingRequest;
  (** the error [Recv] returns once they are consumed: [io.EOF] when the
      client closed the stream *)
  closing : error;
  (** the value of [time.Now()] in iteration [i] *)
  now : nat -> time.Time;
  (** the result of [Send] in iteration [i] *)
  send_err : nat -> option error
}.

(** What [Process] works on: the request context, the server's
    collaborators, the collectors of package [metrics], the log, and the
    arguments of the calls of [srv.Send] so far. *)
Record State {Server : Type} := {
  reqCtx : RequestContext;
  server : Server;
  collectors : metrics.State;
  log : klog.Log;
  sent : list (option ProcessingResponse)
}.
Arguments State : clear implicits.

(** One pass through the loop body goes round again, returns, or panics
    while recording a metric. *)
Inductive Step {Server : Type} :=
| Continue (st : State Server)
| Return (err : option error) (st : State Server)
| Panic (st : State Server).
Arguments Step : clear implicits.

(** The end of a run of [Process]: the error returned (nil is [None]), the
    state left behind, the envelopes never received, and whether the run
    ended in a panic rather than a return ([result] is then [None], and
    [final] the state the panic found). *)
Record Outcome {Server : Type} := {
  result : option error;
  final : State Server;
  unread : list ProcessingRequest;
  panicked : bool
}.
Arguments Outcome : clear implicits.

(** The state a pass leaves behind. *)
Definition state_of {Server : Type} (r : Step Server) : State Server :=
  match r with
  | Continue st => st
  | Return _ st => st
  | Panic st => st
  end.

Definition is_panic {Server : Type} (r : Step Server) : bool :=
  match r with
  | Panic _ => true
  | _ => false
  end.

(** One more recording on collectors that may have panicked already: a
    panic leaves them as it finds them, and nothing is recorded after it. *)
Definition record (f : metrics.State -> option metrics.State)
    (r : metrics.State * bool) : metrics.State * bool :=
  match r with
  | (m, true) => (m, true)
  | (m, false) =>
      match f m with
      | Some m' => (m', false)
      | None => (m, true)
      end
  end.

Section Process.

(** The server [s] with its scheduler, pod provider and datastore. *)
Variable Server : Type.

(** The four phase handlers live in other files of the package.  They read
    the envelope, update the request context and, for the methods of the
    server, its collaborators; they return a response (possibly nil) and,
    except for [HandleRequestHeaders], an error (possibly nil). *)
Variable HandleRequestHeaders :
  RequestContext -> ProcessingRequest -> RequestContext * option ProcessingResponse.
Variable HandleRequestBody :
  Server -> RequestContext -> ProcessingRequest ->
  Server * RequestContext * option ProcessingResponse * option error.
Variable HandleResponseHeaders :
  Server -> RequestContext -> ProcessingRequest ->
  Server * RequestContext * option ProcessingResponse * option error.
Variable HandleResponseBody :
  Server -> RequestContext -> ProcessingRequest ->
  Server * RequestContext * option ProcessingResponse * option error.

Variable srv : ProcessServer.

Abbreviation St := (State Server).

Definition add_log (e : klog.Entry) (st : St) : St :=
  {| reqCtx := reqCtx st; server := server st; collectors := collectors st;
     log := log st ++ [e]; sent := sent st |}.

(** The response built for a shed request. *)
Definition tooManyRequests : ProcessingResponse :=
  ProcessingResponse_ImmediateResponse
    {| Status := {| envoyTypePb.Code := envoyTypePb.StatusCode_TooManyRequests |} |}.

(** [srv.Send(resp)] and what follows it. *)
Definition send (i : nat) (resp : option ProcessingResponse) (st : St) : Step Server :=
  let st := {| reqCtx := reqCtx st; server := server st; collectors := collectors st;
               log := log st; sent := sent st ++ [resp] |} in
  match send_err srv i with
  | Some _ =>
      Return (status.Errorf codes.Unknown) (add_log (klog.Errorf "send error %v") st)
  | None => Continue st
  end.

(** From [if err != nil] to the end of the loop body. *)
Definition reply (i : nat) (resp : option ProcessingResponse) (err : option error)
    (st : St) : Step Server :=
  match err with
  | Some e =>
      let st := add_log (klog.Errorf "failed to process request: %v") st in
      match status.Code e with
      | codes.ResourceExhausted => send i (Some tooManyRequests) st
      | c => Return (status.Errorf c) st
      end
  | None => send i resp st
  end.

(** The metrics recorded after [HandleRequestBody]: the collectors reached,
    and whether a recording panicked. *)
Definition afterRequestBody (err : option error) (rc : RequestContext)
    (m : metrics.State) : metrics.State * bool :=
  match err with
  | None =>
      record
        (metrics.RecordRequestSizes (Model rc) (ResolvedTargetModel rc) (RequestSize rc))
        (record
           (metrics.RecordRequestCounter (Model rc) (ResolvedTargetModel rc))
           (m, false))
  | Some _ => (m, false)
  end.

(** The bookkeeping after [HandleResponseBody]: the request context, the
    collectors and the log reached, and whether a recording panicked. *)
Definition afterResponseBody (i : nat) (err : option error) (rc : RequestContext)
    (m : metrics.State) (l : klog.Log)
    : RequestContext * metrics.State * klog.Log * bool :=
  match err with
  | None =>
      if ResponseComplete rc then
        let rc := set_ResponseCompleteTimestamp (now srv i) rc in
        match
          metrics.RecordRequestLatencies (Model rc) (ResolvedTargetModel rc)
            (RequestReceivedTimestamp rc) (ResponseCompleteTimestamp rc) m l
        with
        | None => (rc, m, l, true)
        | Some (_, m, l) =>
            let '(m, p) :=
              record
                (metrics.RecordOutputTokens (Model rc) (ResolvedTargetModel rc)
                   (CompletionTokens (Usage (Response rc))))
                (record
                   (metrics.RecordInputTokens (Model rc) (ResolvedTargetModel rc)
                      (PromptTokens (Usage (Response rc))))
                   (record
                      (metrics.RecordResponseSizes (Model rc) (ResolvedTargetModel rc)
                         (ResponseSize rc))
                      (m, false))) in
            (rc, m, l, p)
        end
      else (rc, m, l, false)
  | Some _ => (rc, m, l, false)
  end.

(** The loop body from the type switch on: one received envelope. *)
Definition serve (i : nat) (req : ProcessingRequest) (st : St) : Step Server :=
  match Request req with
  | Some (ProcessingRequest_RequestHeaders _) =>
      let rc := set_RequestReceivedTimestamp (now srv i) (reqCtx st) in
      let '(rc, resp) := HandleRequestHeaders rc req in
      reply i resp None
        {| reqCtx := rc; server := server st; collectors := collectors st;
           log := log st; sent := sent st |}
  | Some (ProcessingRequest_RequestBody _) =>
      let '(s, rc, resp, err) := HandleRequestBody (server st) (reqCtx st) req in
      let '(m, p) := afterRequestBody err rc (collectors st) in
      let st' := {| reqCtx := rc; server := s; collectors := m;
                    log := log st; sent := sent st |} in
      if p then Panic st' else reply i resp err st'
  | Some (ProcessingRequest_ResponseHeaders _) =>
      let '(s, rc, resp, err) := HandleResponseHeaders (server st) (reqCtx st) req in
      reply i resp err
        {| reqCtx := rc; server := s; collectors := collectors st;
           log := log st; sent := sent st |}
  | Some (ProcessingRequest_ResponseBody _) =>
      let '(s, rc, resp, err) := HandleResponseBody (server st) (reqCtx st) req in
      let '(rc, m, l, p) := afterResponseBody i err rc (collectors st) (log st) in
      let st' := {| reqCtx := rc; server := s; collectors := m; log := l;
                    sent := sent st |} in
      if p then Panic st' else reply i resp err st'
  | _ =>
      Return (status.Errorf codes.Unknown)
        (add_log (klog.Errorf "Unknown Request type %+v") st)
  end.

(** The error the handler of the envelope [req] returns when called in the
    state [st]; [None] for nil, and where no handler returning an error is
    called. *)
Definition handler_error (req : ProcessingRequest) (st : St) : option error :=
  match Request req with
  | Some (ProcessingRequest_RequestBody _) =>
      (HandleRequestBody (server st) (reqCtx st) req).2
  | Some (ProcessingRequest_ResponseHeaders _) =>
      (HandleResponseHeaders (server st) (reqCtx st) req).2
  | Some (ProcessingRequest_ResponseBody _) =>
      (HandleResponseBody (server st) (reqCtx st) req).2
  | _ => None
  end.

(** The [for] loop, from iteration [i] on, with [msgs] still to be
    received.  Every pass returns, panics or consumes an envelope, and
    [Recv] on a consumed stream returns its closing error: the loop ends. *)
Fixpoint loop (i : nat) (msgs : list ProcessingRequest) (st : St) : Outcome Server :=
  match ctx_Err srv i with
  | Some e => {| result := Some e; final := st; unread := msgs; panicked := false |}
  | None =>
      match msgs with
      | [] =>
          if decide (closing srv = io_EOF) then
            {| result := None; final := st; unread := []; panicked := false |}
          else
            {| result := status.Errorf codes.Unknown; final := st; unread := [];
               panicked := false |}
      | req :: rest =>
          match serve i req st with
          | Return err st' =>
              {| result := err; final := st'; unread := rest; panicked := false |}
          | Panic st' =>
              {| result := None; final := st'; unread := rest; panicked := true |}
          | Continue st' => loop (S i) rest st'
          end
      end
  end.

(** [s.Process(srv)], started with the collectors [m] and the log [l]. *)
Definition Process (s : Server) (m : metrics.State) (l : klog.Log) : Outcome Server :=
  loop 0 (incoming srv)
    {| reqCtx := RequestContext_zero; server := s; collectors := m;
       log := l; sent := [] |}.

End Process.

End handlers.

(** ** Test doubles and sample streams

    Phase handlers in the style of the package's fakes, and a few streams,
    used to run [Process] on concrete inputs. *)

Module examples.

Import extProcPb handlers.

(** A server whose scheduler gives every request the same verdict: an
    error, or the pod at 10.0.0.1:8000. *)
Record Server := { verdict : option error }.

Definition pod : backend.Pod :=
  {| backend.Namespace := "default"; backend.Name := "pod-a";
     backend.Address := "10.0.0.1:8000" |}.

Definition body_of (req : ProcessingRequest) : string :=
  match Request req with
  | Some (ProcessingRequest_RequestBody b) => Body b
  | Some (ProcessingRequest_ResponseBody b) => Body b
  | _ => ""
  end.

Definition end_of_stream (req : ProcessingRequest) : bool :=
  match Request req with
  | Some (ProcessingRequest_RequestBody b) => EndOfStream b
  | Some (ProcessingRequest_ResponseBody b) => EndOfStream b
  | _ => false
  end.

Definition pass : CommonResponse := {| SetHeaders := []; BodyMutation := None |}.

Definition HandleRequestHeaders (rc : RequestContext) (req : ProcessingRequest)
    : RequestContext * option ProcessingResponse :=
  (rc, Some (ProcessingResponse_RequestHeaders pass)).

(** Resolves the alias [sql-lora] to [sql-lora-1fdg2] and asks the
    scheduler. *)
Definition HandleRequestBody (s : Server) (rc : RequestContext) (req : ProcessingRequest)
    : Server * RequestContext * option ProcessingResponse * option error :=
  match verdict s with
  | Some e => (s, rc, None, Some e)
  | None =>
      (s,
       {| TargetPod := pod;
          Model := "sql-lora";
          ResolvedTargetModel := "sql-lora-1fdg2";
          RequestReceivedTimestamp := RequestReceivedTimestamp rc;
          ResponseCompleteTimestamp := ResponseCompleteTimestamp rc;
          RequestSize := Z.of_nat (String.length (body_of req));
          Response := Response rc;
          ResponseSize := ResponseSize rc;
          ResponseComplete := ResponseComplete rc |},
       Some (ProcessingResponse_RequestBody
               {| SetHeaders := [("target-pod", backend.Address pod)];
                  BodyMutation := Some (body_of req) |}),
       None)
  end.

Definition HandleResponseHeaders (s : Server) (rc : RequestContext) (req : ProcessingRequest)
    : Server * RequestContext * option ProcessingResponse * option error :=
  (s, rc, Some (ProcessingResponse_ResponseHeaders pass), None).

(** Adds up the size of the chunks and marks the response complete at the
    end of the stream; it finds no usage in the body and leaves the counts
    as they are. *)
Definition HandleResponseBody (s : Server) (rc : RequestContext) (req : ProcessingRequest)
    : Server * RequestContext * option ProcessingResponse * option error :=
  (s,
   {| TargetPod := TargetPod rc;
      Model := Model rc;
      ResolvedTargetModel := ResolvedTargetModel rc;
      RequestReceivedTimestamp := RequestReceivedTimestamp rc;
      ResponseCompleteTimestamp := ResponseCompleteTimestamp rc;
      RequestSize := RequestSize rc;
      Response := Response rc;
      ResponseSize := ResponseSize rc + Z.of_nat (String.length (body_of req));
      ResponseComplete := end_of_stream req |},
   Some (ProcessingResponse_ResponseBody pass),
   None).

Definition requestHeaders : ProcessingRequest :=
  {| Request := Some (ProcessingRequest_RequestHeaders
       {| Headers := [("content-type", "application/json")];
          Headers_EndOfStream := false |}) |}.

Definition requestBody : ProcessingRequest :=
  {| Request := Some (ProcessingRequest_RequestBody
       {| Body := "{model:sql-lora,prompt:x}"; EndOfStream := true |}) |}.

Definition responseHeaders : ProcessingRequest :=
  {| Request := Some (ProcessingRequest_ResponseHeaders
       {| Headers := [("content-type", "text/event-stream")];
          Headers_EndOfStream := false |}) |}.

Definition responseChunk : ProcessingRequest :=
  {| Request := Some (ProcessingRequest_ResponseBody
       {| Body := "data: {text:hello}"; EndOfStream := false |}) |}.

Definition responseEnd : ProcessingRequest :=
  {| Request := Some (ProcessingRequest_ResponseBody
       {| Body := "data: [DONE]"; EndOfStream := true |}) |}.

Definition requestTrailers : ProcessingRequest :=
  {| Request := Some (ProcessingRequest_RequestTrailers {| Trailers := [] |}) |}.

(** A stream that is never cancelled, closed by the client after [msgs],
    with a clock and a transport that accepts every response. *)
Definition stream (msgs : list ProcessingRequest) (clock : nat -> time.Time)
    : ProcessServer :=
  {| ctx_Err := fun _ => None;
     incoming := msgs;
     closing := io_EOF;
     now := clock;
     send_err := fun _ => None |}.

(** A clock that advances by a millisecond per iteration. *)
Definition ticking (i : nat) : time.Time := 1000000 * (1 + Z.of_nat i).

(** The same stream, cancelled from iteration [k] on. *)
Definition cancelled_at (k : nat) (msgs : list ProcessingRequest) : ProcessServer :=
  {| ctx_Err := fun i => if (k <=? i)%nat then Some context_Canceled else None;
     incoming := msgs;
     closing := io_EOF;
     now := ticking;
     send_err := fun _ => None |}.

(** The state [Process] starts in, with empty collectors and log. *)
Definition fresh (s : Server) : State Server :=
  {| reqCtx := RequestContext_zero; server := s; collectors := metrics.init;
     log := []; sent := [] |}.

(** A server whose scheduler finds a pod, one with no pod to offer, and
    one that sheds the request. *)
Definition serving : Server := {| verdict := None |}.
Definition unavailable : Server :=
  {| verdict := Some (status_error codes.Unavailable) |}.
Definition shedding : Server :=
  {| verdict := Some (status_error codes.ResourceExhausted) |}.

(** The collectors once [Register] has run in a fresh process. *)
Definition registered : metrics.State :=
  {| metrics.requestCounter := ∅;
     metrics.requestLatencies := ∅;
     metrics.requestSizes := ∅;
     metrics.responseSizes := ∅;
     metrics.inputTokens := ∅;
     metrics.outputTokens := ∅;
     metrics.registerMetrics := true;
     metrics.legacyregistry := map metrics.fqName metrics.all_opts |}.

(** [Process] on the stream [srv], after [Register]. *)
Definition serve_registered (s : Server) (srv : ProcessServer) : Outcome Server :=
  Process Server HandleRequestHeaders HandleRequestBody HandleResponseHeaders
    HandleResponseBody srv s registered [].

(** [Process] on the stream [srv] in a process that never called
    [Register]. *)
Definition run (s : Server) (srv : ProcessServer) : Outcome Server :=
  Process Server HandleRequestHeaders HandleRequestBody HandleResponseHeaders
    HandleResponseBody srv s metrics.init [].

(** The state after the request phases and the response headers, as the
    first chunk of the response body meets it: without registration, and
    after it. *)
Definition served : State Server :=
  final (run serving (stream [requestHeaders; requestBody; responseHeaders] ticking)).

Definition served_registered : State Server :=
  final (serve_registered serving
           (stream [requestHeaders; requestBody; responseHeaders] ticking)).

End examples.

(** ** Sequences of recordings

    The callers of package [metrics] record one request after the other;
    these folds do so over a list, in order. *)

Module metrics_seq.

Import metrics.

(** [RecordRequestCounter] for each label pair of [reqs]; a panic ends
    it. *)
Fixpoint RecordRequestCounter_all (reqs : list (string * string)) (s : State)
    : option State :=
  match reqs with
  | [] => Some s
  | r :: reqs' =>
      s' ← RecordRequestCounter r.1 r.2 s; RecordRequestCounter_all reqs' s'
  end.

(** [RecordRequestSizes] for each label pair and size of [reqs]. *)
Fixpoint RecordRequestSizes_all (reqs : list (string * string * Z)) (s : State)
    : option State :=
  match reqs with
  | [] => Some s
  | r :: reqs' =>
      s' ← RecordRequestSizes r.1.1 r.1.2 r.2 s; RecordRequestSizes_all reqs' s'
  end.

(** Both label values are valid UTF-8. *)
Definition valid_labels (m t : string) : bool :=
  utf8.ValidString m && utf8.ValidString t.

(** The requests of [reqs] under the label pair [(m, t)]. *)
Definition labelled {A : Type} (m t : string) (reqs : list (string * string * A))
    : list (string * string * A) :=
  filter (fun r => r.1 = (m, t)) reqs.

(** Every sample of the vector is strictly positive. *)
Definition all_positive (h : gmap (string * string) (list Q)) : Prop :=
  forall m t v, v ∈ samples h m t -> (0 < v)%Q.

(** The request counter and the request-size histogram agree on the number
    of requests of every label pair. *)
Definition requests_in_step (s : State) : Prop :=
  forall m t,
    count (requestCounter s) m t = N.of_nat (sample_count (requestSizes s) m t).

(** The three histograms fed when a response completes hold the same number
    of samples for every label pair, and the latency histogram at most as
    many. *)
Definition responses_in_step (s : State) : Prop :=
  forall m t,
    sample_count (inputTokens s) m t = sample_count (responseSizes s) m t /\
    sample_count (outputTokens s) m t = sample_count (responseSizes s) m t /\
    (sample_count (requestLatencies s) m t <= sample_count (responseSizes s) m t)%nat.

(** The collectors of [s'] extend those of [s]: every count is at least
    what it was, every series starts with its old samples, and the
    registration is the same. *)
Definition extends (s s' : State) : Prop :=
  (forall m t, (count (requestCounter s) m t <= count (requestCounter s') m t)%N) /\
  (forall m t, samples (requestLatencies s) m t `prefix_of` samples (requestLatencies s') m t) /\
  (forall m t, samples (requestSizes s) m t `prefix_of` samples (requestSizes s') m t) /\
  (forall m t, samples (responseSizes s) m t `prefix_of` samples (responseSizes s') m t) /\
  (forall m t, samples (inputTokens s) m t `prefix_of` samples (inputTokens s') m t) /\
  (forall m t, samples (outputTokens s) m t `prefix_of` samples (outputTokens s') m t) /\
  registerMetrics s' = registerMetrics s /\
  legacyregistry s' = legacyregistry s.

End metrics_seq.

(** ** More of the Process loop *)

Module handlers_seq.

Import extProcPb handlers.

Section Process.

Variable Server : Type.
Variable HandleRequestHeaders :
  RequestContext -> ProcessingRequest -> RequestContext * option ProcessingResponse.
Variable HandleRequestBody HandleResponseHeaders HandleResponseBody :
  Server -> RequestContext -> ProcessingRequest ->
  Server * RequestContext * option ProcessingResponse * option error.
Variable srv : ProcessServer.

(** The response the handler of the envelope [req] returns when called in
    iteration [i] in the state [st]; for RequestHeaders the handler is
    called on the context stamped with the time of receipt. *)
Definition handler_response (i : nat) (req : ProcessingRequest) (st : State Server)
    : option ProcessingResponse :=
  match Request req with
  | Some (ProcessingRequest_RequestHeaders _) =>
      (HandleRequestHeaders
         (set_RequestReceivedTimestamp (now srv i) (reqCtx st)) req).2
  | Some (ProcessingRequest_RequestBody _) =>
      (HandleRequestBody (server st) (reqCtx st) req).1.2
  | Some (ProcessingRequest_ResponseHeaders _) =>
      (HandleResponseHeaders (server st) (reqCtx st) req).1.2
  | Some (ProcessingRequest_ResponseBody _) =>
      (HandleResponseBody (server st) (reqCtx st) req).1.2
  | _ => None
  end.

End Process.

(** The envelopes that carry a request body, and those that carry a
    response body. *)
Definition is_RequestBody (req : ProcessingRequest) : bool :=
  match Request req with
  | Some (ProcessingRequest_RequestBody _) => true
  | _ => false
  end.

Definition is_ResponseBody (req : ProcessingRequest) : bool :=
  match Request req with
  | Some (ProcessingRequest_ResponseBody _) => true
  | _ => false
  end.

(** The errors [Process] can return by itself: a gRPC status error. *)
Definition is_status_error (e : error) : bool :=
  match e with
  | status_error _ => true
  | _ => false
  end.

End handlers_seq.

(** ** Package tracing, with what it uses of os, strconv and errors *)

Module os.

(** The environment of the process, and [os.Getenv]: the value of the
    variable, empty when it is not set. *)
Definition Getenv (env : gmap string string) (key : string) : string :=
  default "" (env !! key).

End os.

Module strconv.

(** [strconv.ParseBool]; [None] is a syntax error. *)
Definition ParseBool (str : string) : option bool :=
  if decide (str ∈ ["1"; "t"; "T"; "TRUE"; "true"; "True"]) then Some true
  else if decide (str ∈ ["0"; "f"; "F"; "FALSE"; "false"; "False"]) then Some false
  else None.

End strconv.

Module tracing.

Definition ServiceName : string := "gateway-api-inference-extension".

Definition envOTELTracingEnabled : string := "OTEL_TRACING_ENABLED".
Definition envOTELExporterEndpoint : string := "OTEL_EXPORTER_OTLP_ENDPOINT".
Definition envOTELCaptureEvent : string := "OTEL_INSTRUMENTATION_GENAI_CAPTURE_MESSAGE_CONTENT".
Definition envOTELServiceName : string := "OTEL_SERVICE_NAME".
Definition envOTELSamplingRate : string := "OTEL_SAMPLING_RATE".

(** The variables [NewConfigFromEnv] reads. *)
Definition env_names : list string :=
  [envOTELTracingEnabled; envOTELCaptureEvent; envOTELExporterEndpoint;
   envOTELServiceName; envOTELSamplingRate].

Record Config := {
  Enabled : bool;
  CaptureEvent : bool;
  ExporterEndpoint : string;
  SamplingRate : Q;
  ServiceName_ : string
}.

(** Errors of this package: one handed over by a library, one wrapped by
    [fmt.Errorf] with [%w], and the result of [errors.Join]. *)
#[warnings="-register-all"]
Inductive terror :=
| library_error (what : string)
| wrapped (msg : string) (e : terror)
| joined (es : list terror).

(** [errors.Join(errs...)]: nil values are dropped, and the result is nil
    when none is left. *)
Definition errors_Join (errs : list (option terror)) : option terror :=
  match omap id errs with
  | [] => None
  | es => Some (joined es)
  end.

(** The errors an error is made of, when it is read through the joins from
    left to right; none for nil. *)
Fixpoint leaves (e : terror) : list terror :=
  match e with
  | joined es => flat_map leaves es
  | _ => [e]
  end.

Definition error_leaves (e : option terror) : list terror :=
  match e with
  | Some e => leaves e
  | None => []
  end.

(** What [Initialize] builds. *)
Inductive TextMapPropagator := TraceContext | Baggage.

Inductive Sampler := AlwaysSample | TraceIDRatioBased (rate : Q).

Record TracerProvider := {
  tp_endpoint : string;          (* the batcher's exporter: WithEndpointURL *)
  tp_service_name : string;      (* the resource's service name *)
  tp_service_version : string;   (* the resource's service version *)
  tp_sampler : Sampler
}.

Record LoggerProvider := {
  lp_endpoint : string           (* the batch processor's exporter *)
}.

(** The clean-up functions [Initialize] registers. *)
Inductive Cleanup :=
| tp_Shutdown (tp : TracerProvider)
| lp_Shutdown (lp : LoggerProvider).

(** The process-wide OpenTelemetry settings. *)
Record Globals := {
  TextMapPropagator_ : option (list TextMapPropagator);
  TracerProvider_ : option TracerProvider;
  LoggerProvider_ : option LoggerProvider
}.

(** The closure [shutdown]: the variable [shutdownFuncs] it captures. *)
Record Shutdown := { shutdownFuncs : list Cleanup }.

Section Tracing.

(** [strconv.ParseFloat(s, 64)]: the value when the error is nil. *)
Variable ParseFloat : string -> option Q.

(** The outcome of the library constructors: the error returned by
    [otlptracegrpc.New] and by [otlploggrpc.New] for an endpoint, and by
    [resource.New] for a service name; [None] is success. *)
Variable otlptracegrpc_New : string -> option terror.
Variable resource_New : string -> option terror.
Variable otlploggrpc_New : string -> option terror.

(** The error a clean-up function returns when called. *)
Variable call : Cleanup -> option terror.

(** [NewConfigFromEnv()] in the environment [env]. *)
Definition NewConfigFromEnv (env : gmap string string) : Config :=
  let config := {|
    Enabled := false;
    CaptureEvent := false;
    ExporterEndpoint := "http://localhost:4317";
    SamplingRate := 0.1%Q;
    ServiceName_ := ServiceName
  |} in
  let config :=
    let enabled := os.Getenv env envOTELTracingEnabled in
    if decide (enabled = "") then config
    else match strconv.ParseBool enabled with
         | Some enabledBool =>
             {| Enabled := enabledBool;
                CaptureEvent := CaptureEvent config;
                ExporterEndpoint := ExporterEndpoint config;
                SamplingRate := SamplingRate config;
                ServiceName_ := ServiceName_ config |}
         | None => config
         end in
  let config :=
    let captureEvent := os.Getenv env envOTELCaptureEvent in
    if decide (captureEvent = "") then config
    else match strconv.ParseBool captureEvent with
         | Some captureEventBool =>
             {| Enabled := Enabled config;
                CaptureEvent := captureEventBool;
                ExporterEndpoint := ExporterEndpoint config;
                SamplingRate := SamplingRate config;
                ServiceName_ := ServiceName_ config |}
         | None => config
         end in
  let config :=
    let endpoint := os.Getenv env envOTELExporterEndpoint in
    if decide (endpoint = "") then config
    else {| Enabled := Enabled config;
            CaptureEvent := CaptureEvent config;
            ExporterEndpoint := endpoint;
            SamplingRate := SamplingRate config;
            ServiceName_ := ServiceName_ config |} in
  let config :=
    let serviceName := os.Getenv env envOTELServiceName in
    if decide (serviceName = "") then config
    else {| Enabled := Enabled config;
            CaptureEvent := CaptureEvent config;
            ExporterEndpoint := ExporterEndpoint config;
            SamplingRate := SamplingRate config;
            ServiceName_ := serviceName |} in
  let config :=
    let samplingRate := os.Getenv env envOTELSamplingRate in
    if decide (samplingRate = "") then config
    else match ParseFloat samplingRate with
         | Some rate =>
             {| Enabled := Enabled config;
                CaptureEvent := CaptureEvent config;
                ExporterEndpoint := ExporterEndpoint config;
                SamplingRate := rate;
                ServiceName_ := ServiceName_ config |}
         | None => config
         end in
  config.

(** [Initialize(ctx, config)]: the new settings, the closure returned (nil
    is [None]) and the error. *)
Definition Initialize (config : Config) (g : Globals)
    : Globals * option Shutdown * option terror :=
  let g := {| TextMapPropagator_ := Some [TraceContext; Baggage];
              TracerProvider_ := TracerProvider_ g;
              LoggerProvider_ := LoggerProvider_ g |} in
  if negb (Enabled config) then
    (g, Some {| shutdownFuncs := [] |}, None)
  else
    match otlptracegrpc_New (ExporterEndpoint config) with
    | Some err => (g, None, Some (wrapped "failed to create trace exporter" err))
    | None =>
        match resource_New (ServiceName_ config) with
        | Some err => (g, None, Some (wrapped "failed to create resource" err))
        | None =>
            let tp := {| tp_endpoint := ExporterEndpoint config;
                         tp_service_name := ServiceName_ config;
                         tp_service_version := "1.0.0";
                         tp_sampler := AlwaysSample |} in
            match otlploggrpc_New (ExporterEndpoint config) with
            | Some err => (g, None, Some (wrapped "failed to create log exporter" err))
            | None =>
                let lp := {| lp_endpoint := ExporterEndpoint config |} in
                ({| TextMapPropagator_ := TextMapPropagator_ g;
                    TracerProvider_ := Some tp;
                    LoggerProvider_ := Some lp |},
                 Some {| shutdownFuncs := [tp_Shutdown tp; lp_Shutdown lp] |},
                 None)
            end
        end
    end.

(** The loop of the closure [shutdown] over the registered functions: it
    calls each, joins its error to the ones before, and notes the call. *)
Definition shutdown_loop (fns : list Cleanup) : option terror * list Cleanup :=
  foldl (fun acc fn => (errors_Join [acc.1; call fn], acc.2 ++ [fn]))
    (None, []) fns.

(** A call of the closure [shutdown]: the joined error, the clean-up
    functions it called, in the order of the calls, and the closure
    afterwards. *)
Definition shutdown (sd : Shutdown) : option terror * list Cleanup * Shutdown :=
  (shutdown_loop (shutdownFuncs sd), {| shutdownFuncs := [] |}).

End Tracing.

End tracing.

(** ** More sample inputs *)

Module examples_seq.

Import extProcPb handlers examples.

(** A stream whose transport breaks after [msgs]: [Recv] then fails with an
    error that is not [io.EOF]. *)
Definition broken_after (msgs : list ProcessingRequest) : ProcessServer :=
  {| ctx_Err := fun _ => None;
     incoming := msgs;
     closing := plain_error;
     now := ticking;
     send_err := fun _ => None |}.

(** A whole exchange: the request, then a response in two chunks. *)
Definition exchange : ProcessServer :=
  stream [requestHeaders; requestBody; responseHeaders; responseChunk; responseEnd]
    ticking.

(** A label value that is not valid UTF-8: the single byte 0xFF. *)
Definition bad_label : string := String "255"%char "".

(** Environments of the process. *)
Definition env_plain : gmap string string :=
  {[ "HOME" := "/root" ]}.

Definition env_blank : gmap string string :=
  {[ "HOME" := "/root"; "OTEL_SERVICE_NAME" := ""; "OTEL_TRACING_ENABLED" := "" ]}.

Definition env_on : gmap string string :=
  {[ "OTEL_TRACING_ENABLED" := "true";
     "OTEL_EXPORTER_OTLP_ENDPOINT" := "http://collector:4317" ]}.

(** A [ParseFloat] that knows one numeral. *)
Definition parse_half (s : string) : option Q :=
  if decide (s = "0.5") then Some 0.5%Q else None.

(** Library constructors and clean-ups that all succeed. *)
Definition ok_New (arg : string) : option tracing.terror := None.
Definition ok_call (fn : tracing.Cleanup) : option tracing.terror := None.

Definition no_globals : tracing.Globals :=
  {| tracing.TextMapPropagator_ := None;
     tracing.TracerProvider_ := None;
     tracing.LoggerProvider_ := None |}.

Definition config_off : tracing.Config := tracing.NewConfigFromEnv parse_half env_plain.
Definition config_on : tracing.Config := tracing.NewConfigFromEnv parse_half env_on.

End examples_seq.

(** * Properties

    ** The collectors *)

Module metrics_facts.
Import metrics.

Lemma samples_Observe (h : gmap (string * string) (list Q)) m t v m' t' :
  samples (Observe m t v h) m' t' =
  samples h m' t' ++ (if decide ((m, t) = (m', t')) then [v] else []).
Proof.
  unfold samples, Observe. rewrite lookup_insert.
  case_decide as E.
  - by inversion E; subst.
  - by rewrite app_nil_r.
Qed.

Lemma total_samples_Observe (h : gmap (string * string) (list Q)) m t v :
  total_samples (Observe m t v h) = S (total_samples h).
Proof.
  unfold total_samples, Observe.
  destruct (h !! (m, t)) as [vs|] eqn:E; simpl.
  - rewrite <- insert_delete_eq.
    rewrite map_fold_insert_L; [| intros; lia | apply lookup_delete_eq].
    rewrite (map_fold_delete_L _ _ (m, t) vs h); [| intros; lia | done].
    rewrite length_app. simpl. lia.
  - rewrite map_fold_insert_L; [simpl; lia | intros; lia | done].
Qed.

Lemma count_Inc (c : gmap (string * string) N) m t m' t' :
  count (Inc m t c) m' t' =
  (count c m' t' + (if decide ((m, t) = (m', t')) then 1 else 0))%N.
Proof.
  unfold count, Inc. rewrite lookup_insert.
  case_decide as E.
  - inversion E; subst. simpl. lia.
  - lia.
Qed.

Lemma total_count_Inc (c : gmap (string * string) N) m t :
  total_count (Inc m t c) = (total_count c + 1)%N.
Proof.
  unfold total_count, Inc.
  destruct (c !! (m, t)) as [k|] eqn:E; simpl.
  - rewrite <- insert_delete_eq.
    rewrite map_fold_insert_L; [| intros; lia | apply lookup_delete_eq].
    rewrite (map_fold_delete_L _ _ (m, t) k c); [| intros; lia | done].
    lia.
  - rewrite map_fold_insert_L; [simpl; lia | intros; lia | done].
Qed.

End metrics_facts.

(** ** Rounding to float64 *)

Module float64_facts.
Import float64.

Lemma two_power_pos (z : Z) : (0 < 2 ^ z)%Q.
Proof. apply Qpower_0_lt. reflexivity. Qed.

Lemma two_power_Z (z : Z) : 0 <= z -> (inject_Z (2 ^ z) == 2 ^ z)%Q.
Proof. intros H. apply (Zpower_Qpower 2 z H). Qed.

Lemma two_power_add (a b : Z) : (2 ^ a * 2 ^ b == 2 ^ (a + b))%Q.
Proof. symmetry. apply Qpower_plus. discriminate. Qed.

(** [ilog2] does not overshoot: two to that power is at most [x]. *)
Lemma ilog2_lower (x : Q) : (0 < x)%Q -> (2 ^ ilog2 x <= x)%Q.
Proof.
  intros Hx. unfold ilog2.
  destruct (Qle_bool 1 x) eqn:H1.
  - apply Qle_bool_iff in H1.
    assert (0 < Qfloor x) as Hf.
    { pose proof (Qfloor_resp_le 1 x H1) as H. change (Qfloor 1) with 1 in H. lia. }
    destruct (Z.log2_spec (Qfloor x) Hf) as [Hl _].
    rewrite <- two_power_Z by apply Z.log2_nonneg.
    eapply Qle_trans; [|apply Qfloor_le].
    rewrite <- Zle_Qle. exact Hl.
  - assert (x < 1)%Q as Hlt.
    { apply Qnot_le_lt. intros H. apply Qle_bool_iff in H. congruence. }
    assert (1 < / x)%Q as Hy.
    { apply Qlt_shift_inv_l; [exact Hx | lra]. }
    pose proof (Qle_ceiling (/ x)) as Hc.
    assert (1 < Qceiling (/ x)) as Hc1.
    { rewrite Zlt_Qlt. eapply Qlt_le_trans; [exact Hy | exact Hc]. }
    destruct (Z.log2_up_spec (Qceiling (/ x)) Hc1) as [_ Hu].
    rewrite Qpower_opp.
    rewrite <- two_power_Z by apply Z.log2_up_nonneg.
    rewrite Zle_Qle in Hu.
    assert (/ x <= inject_Z (2 ^ Z.log2_up (Qceiling (/ x))))%Q as Hle
      by (eapply Qle_trans; [exact Hc | exact Hu]).
    assert (0 < inject_Z (2 ^ Z.log2_up (Qceiling (/ x))))%Q as Hp
      by (eapply Qlt_le_trans; [|exact Hle]; lra).
    apply Qle_shift_inv_r; [exact Hp|].
    assert (x * / x == 1)%Q as E1.
    { apply Qmult_inv_r. intros E. rewrite E in Hx. discriminate. }
    rewrite <- E1. apply Qmult_le_l; [exact Hx | exact Hle].
Qed.

Lemma rint_ge_floor (x : Q) : Qfloor x <= rint x.
Proof.
  unfold rint. destruct (_ ?= _)%Q; [destruct (Z.even _) | |]; lia.
Qed.

(** Rounding loses less than half of a value that is not tiny. *)
Lemma round_pos_lower (x : Q) :
  (1 # 2 ^ 1000 <= x)%Q -> (x * (1 # 2) <= round_pos x)%Q.
Proof.
  intros Hx.
  assert (0 < x)%Q as Hpos by (eapply Qlt_le_trans; [|exact Hx]; reflexivity).
  unfold round_pos.
  set (e := Z.max (ilog2 x) (-1022)).
  rewrite Qred_correct.
  set (s := (x * 2 ^ (52 - e))%Q).
  assert (2 <= s)%Q as Hs.
  { unfold s. destruct (Z.max_spec (ilog2 x) (-1022)) as [[_ He]|[_ He]]; fold e in He.
    - rewrite He. change (52 - -1022) with 1074.
      eapply Qle_trans;
        [|apply Qmult_le_compat_r; [exact Hx | apply Qlt_le_weak, two_power_pos]].
      vm_compute. discriminate.
    - rewrite He.
      eapply Qle_trans;
        [|apply Qmult_le_compat_r;
           [apply ilog2_lower, Hpos | apply Qlt_le_weak, two_power_pos]].
      rewrite two_power_add.
      replace (ilog2 x + (52 - ilog2 x)) with 52 by lia.
      vm_compute. discriminate. }
  assert (x == s * 2 ^ (e - 52))%Q as Hxs.
  { unfold s. rewrite <- Qmult_assoc, two_power_add.
    replace (52 - e + (e - 52)) with 0 by lia. simpl. ring. }
  clearbody s.
  assert (s * (1 # 2) <= inject_Z (rint s))%Q as Hr.
  { eapply Qle_trans; [|rewrite <- Zle_Qle; apply rint_ge_floor].
    pose proof (Qlt_floor s) as Hf. rewrite inject_Z_plus in Hf.
    change (inject_Z 1) with 1%Q in Hf. lra. }
  rewrite Hxs at 1.
  setoid_replace (s * 2 ^ (e - 52) * (1 # 2))%Q
    with (s * (1 # 2) * 2 ^ (e - 52))%Q using relation Qeq by ring.
  apply Qmult_le_compat_r; [exact Hr | apply Qlt_le_weak, two_power_pos].
Qed.

Lemma round_lower (x : Q) :
  (1 # 2 ^ 1000 <= x)%Q -> (x * (1 # 2) <= round x)%Q.
Proof.
  intros Hx. unfold round.
  destruct x as [[|n|n] d]; simpl.
  - exfalso. revert Hx. unfold Qle. simpl. lia.
  - by apply round_pos_lower.
  - exfalso. revert Hx. unfold Qle. simpl. lia.
Qed.

Lemma round_pos_nonneg (x : Q) : (0 <= x)%Q -> (0 <= round_pos x)%Q.
Proof.
  intros Hx. unfold round_pos. rewrite Qred_correct.
  apply Qmult_le_0_compat; [|apply Qlt_le_weak, two_power_pos].
  change 0%Q with (inject_Z 0). rewrite <- Zle_Qle.
  etransitivity; [|apply rint_ge_floor].
  change 0 with (Qfloor 0). apply Qfloor_resp_le.
  apply Qmult_le_0_compat; [exact Hx | apply Qlt_le_weak, two_power_pos].
Qed.

Lemma round_nonneg (x : Q) : (0 <= x)%Q -> (0 <= round x)%Q.
Proof.
  intros Hx. unfold round.
  destruct x as [[|n|n] d]; simpl.
  - apply Qle_refl.
  - by apply round_pos_nonneg.
  - exfalso. revert Hx. unfold Qle. simpl. lia.
Qed.

Lemma rint_inject_Z (x : Q) (z : Z) : (x == inject_Z z)%Q -> rint x = z.
Proof.
  intros H. unfold rint. cbv zeta.
  rewrite (Qfloor_comp _ _ H), Qfloor_Z.
  assert ((x - inject_Z z ?= 1 # 2)%Q = Lt) as ->; [|done].
  rewrite <- Qlt_alt. setoid_replace (x - inject_Z z)%Q with 0%Q using relation Qeq.
  - reflexivity.
  - rewrite H. ring.
Qed.

Lemma Qred_inject_Z (z : Z) : Qred (inject_Z z) = inject_Z z.
Proof.
  unfold Qred, inject_Z.
  pose proof (Z.ggcd_gcd z 1) as Hg.
  pose proof (Z.ggcd_correct_divisors z 1) as Hd.
  destruct (Z.ggcd z 1) as [g [r1 r2]]. simpl in *.
  rewrite Z.gcd_1_r in Hg. subst g. destruct Hd as [H1 H2].
  assert (r1 = z) as -> by lia. assert (r2 = 1) as -> by lia. done.
Qed.

Lemma round_pos_exact (n : Z) :
  0 < n <= 2 ^ 53 -> round_pos (inject_Z n) = inject_Z n.
Proof.
  intros [Hn Hmax].
  destruct (decide (n = 2 ^ 53)) as [->|Hne]; [by vm_compute|].
  unfold round_pos. cbv zeta.
  assert (ilog2 (inject_Z n) = Z.log2 n) as ->.
  { unfold ilog2. rewrite Qfloor_Z.
    assert (Qle_bool 1 (inject_Z n) = true) as ->; [|done].
    apply Qle_bool_iff. change 1%Q with (inject_Z 1). rewrite <- Zle_Qle. lia. }
  assert (0 <= Z.log2 n <= 52) as Hl.
  { split; [apply Z.log2_nonneg|].
    assert (Z.log2 n < 53); [|lia]. apply Z.log2_lt_pow2; lia. }
  rewrite Z.max_l by lia.
  set (k := 52 - Z.log2 n).
  replace (Z.log2 n - 52) with (- k) by (unfold k; lia).
  assert (0 <= k) as Hk by (unfold k; lia).
  rewrite (rint_inject_Z _ (n * 2 ^ k)).
  - etrans; [|apply Qred_inject_Z]. apply Qred_complete.
    rewrite inject_Z_mult, (two_power_Z k Hk), <- Qmult_assoc, two_power_add.
    replace (k + - k) with 0 by lia. change (2 ^ 0)%Q with 1%Q. ring.
  - by rewrite inject_Z_mult, (two_power_Z k Hk).
Qed.

(** The conversion of an integer of at most 53 bits is exact. *)
Lemma of_int_exact_53 (n : Z) :
  - 2 ^ 53 <= n <= 2 ^ 53 -> of_int n = inject_Z n.
Proof.
  intros Hn. unfold of_int, round.
  destruct n as [|p|p]; cbn [Qnum inject_Z]; [done| |].
  - apply round_pos_exact. lia.
  - change ((- round_pos (inject_Z (Z.pos p)))%Q = inject_Z (Z.neg p)).
    rewrite (round_pos_exact (Z.pos p)) by lia. done.
Qed.

End float64_facts.

(** ** Instants and durations *)

Module time_facts.
Import time float64_facts.

Lemma Sub_exact (t u : Time) :
  minDuration <= t - u <= maxDuration -> Sub t u = t - u.
Proof.
  unfold Sub. intros [Hlo Hhi].
  destruct (Z.ltb_spec maxDuration (t - u)); [lia|].
  destruct (Z.ltb_spec (t - u) minDuration); [lia|]. reflexivity.
Qed.

Lemma Sub_after (t u : Time) :
  u < t -> Sub t u = Z.min (t - u) maxDuration.
Proof.
  unfold Sub. intros H.
  destruct (Z.ltb_spec maxDuration (t - u)); [lia|].
  destruct (Z.ltb_spec (t - u) minDuration); [unfold minDuration in *; lia| lia].
Qed.

(** The float64 of a positive duration in seconds is positive. *)
Lemma Seconds_positive (d : Duration) : 0 < d -> (0 < Seconds d)%Q.
Proof.
  intros Hd. unfold Seconds, float64.add, float64.div, float64.of_int.
  pose proof (Z.quot_rem' d Second) as E.
  assert (0 <= Z.quot d Second) as Hq by (apply Z.quot_pos; unfold Second; lia).
  assert (0 <= Z.rem d Second) as Hr by (apply Z.rem_nonneg; unfold Second; lia).
  set (sec := Z.quot d Second) in *. set (nsec := Z.rem d Second) in *.
  assert (0 <= inject_Z sec)%Q as Hs0
    by (change 0%Q with (inject_Z 0); by rewrite <- Zle_Qle).
  assert (0 <= inject_Z nsec)%Q as Hn0
    by (change 0%Q with (inject_Z 0); by rewrite <- Zle_Qle).
  pose proof (round_nonneg _ Hs0) as HA.
  pose proof (round_nonneg _ Hn0) as HB.
  assert (0 <= float64.round (inject_Z nsec) / 1000000000)%Q as HBq.
  { apply Qle_shift_div_l; [reflexivity | lra]. }
  pose proof (round_nonneg _ HBq) as HC.
  assert (1 # 2 ^ 1000 <=
          float64.round (inject_Z sec)
          + float64.round (float64.round (inject_Z nsec) / 1000000000))%Q as Hsum.
  { destruct (Z.eq_dec sec 0) as [Hz|Hnz].
    - assert (1 <= nsec) as Hn1 by (unfold Second in E; lia).
      assert (1 <= inject_Z nsec)%Q as Hn1q
        by (change 1%Q with (inject_Z 1); by rewrite <- Zle_Qle).
      assert (1 # 2 <= float64.round (inject_Z nsec))%Q as HB1.
      { eapply Qle_trans; [|apply round_lower].
        - lra.
        - eapply Qle_trans; [|exact Hn1q]. vm_compute. discriminate. }
      assert (1 # 2000000000 <= float64.round (inject_Z nsec) / 1000000000)%Q as Hq1.
      { apply Qle_shift_div_l; [reflexivity|].
        eapply Qle_trans; [|exact HB1]. vm_compute. discriminate. }
      assert (1 # 4000000000 <=
              float64.round (float64.round (inject_Z nsec) / 1000000000))%Q as HC1.
      { eapply Qle_trans; [|apply round_lower].
        - eapply Qle_trans;
            [|apply Qmult_le_compat_r; [exact Hq1 | discriminate]].
          vm_compute. discriminate.
        - eapply Qle_trans; [|exact Hq1]. vm_compute. discriminate. }
      eapply Qle_trans; [|exact (Qplus_le_compat 0 _ (1 # 4000000000) _ HA HC1)].
      vm_compute. discriminate.
    - assert (1 <= inject_Z sec)%Q as Hs1
        by (change 1%Q with (inject_Z 1); rewrite <- Zle_Qle; lia).
      assert (1 # 2 <= float64.round (inject_Z sec))%Q as HA1.
      { eapply Qle_trans; [|apply round_lower].
        - lra.
        - eapply Qle_trans; [|exact Hs1]. vm_compute. discriminate. }
      eapply Qle_trans; [|exact (Qplus_le_compat (1 # 2) _ 0 _ HA1 HC)].
      vm_compute. discriminate. }
  eapply Qlt_le_trans; [|apply round_lower, Hsum].
  eapply Qlt_le_trans;
    [|apply Qmult_le_compat_r; [exact Hsum | discriminate]].
  reflexivity.
Qed.

End time_facts.

(** ** Registration and the latency histogram *)

Module metrics_claims.
Import metrics metrics_seq metrics_facts time_facts.

Lemma MustRegister_fresh o r :
  fqName o ∉ r -> MustRegister o r = Some (r ++ [fqName o]).
Proof. intros H. unfold MustRegister. by rewrite decide_False. Qed.

Lemma registerAll_register_list r : registerAll r = register_list all_opts r.
Proof.
  unfold registerAll, all_opts. simpl.
  repeat (destruct (MustRegister _ _); simpl; [|done]).
  done.
Qed.

Lemma register_list_fresh os : forall r,
  NoDup (map fqName os) ->
  (forall o, o ∈ os -> fqName o ∉ r) ->
  register_list os r = Some (r ++ map fqName os).
Proof.
  induction os as [|o os IH]; intros r Hnd Hr; simpl.
  - by rewrite app_nil_r.
  - apply NoDup_cons in Hnd as [Ho Hnd].
    rewrite MustRegister_fresh by (apply Hr; set_solver). simpl.
    rewrite IH; [by rewrite <- app_assoc | done |].
    intros o' Ho' [Hin|Hin]%elem_of_app.
    + apply (Hr o'); [set_solver | done].
    + apply list_elem_of_singleton in Hin. apply Ho. rewrite <- Hin.
      apply list_elem_of_fmap. eauto.
Qed.

Lemma all_opts_NoDup : NoDup (map fqName all_opts).
Proof. by apply (bool_decide_unpack _); vm_compute. Qed.

Lemma registrations_absent o r : fqName o ∉ r -> registrations o r = 0%nat.
Proof.
  unfold registrations. induction r as [|n r IH]; intros H; [done|].
  rewrite filter_cons. case_decide as E.
  - exfalso. apply H. rewrite E. set_solver.
  - apply IH. set_solver.
Qed.

Lemma registrations_app o r1 r2 :
  registrations o (r1 ++ r2) = (registrations o r1 + registrations o r2)%nat.
Proof. unfold registrations. by rewrite filter_app, length_app. Qed.

Lemma registrations_all_opts o :
  o ∈ all_opts -> registrations o (map fqName all_opts) = 1%nat.
Proof.
  unfold all_opts. intros H.
  repeat (apply elem_of_cons in H as [->|H]; [by vm_compute|]).
  by apply elem_of_nil in H.
Qed.

Lemma Register_done s : registerMetrics s = true -> Register s = Some s.
Proof. intros H. unfold Register. by rewrite H. Qed.

Lemma Register_times_done n : forall s,
  registerMetrics s = true -> Register_times n s = Some s.
Proof.
  induction n as [|n IH]; intros s H; simpl; [done|].
  rewrite Register_done by done. simpl. by apply IH.
Qed.

(** C10.  [Register] is idempotent.  Started where registration has not run
    and none of the six collectors is in the registry, one call registers
    each of the six exactly once; any number of further calls changes
    nothing: [S n] calls leave the state of one call, on which a call is a
    no-op, and which holds each collector once. *)
Theorem Register_idempotent (s : State) (n : nat) :
  registerMetrics s = false ->
  (forall o, o ∈ all_opts -> fqName o ∉ legacyregistry s) ->
  exists s1,
    Register s = Some s1 /\
    Register_times (S n) s = Some s1 /\
    Register s1 = Some s1 /\
    legacyregistry s1 = legacyregistry s ++ map fqName all_opts /\
    (forall o, o ∈ all_opts -> registrations o (legacyregistry s1) = 1%nat).
Proof.
  intros Honce Hfresh.
  assert (registerAll (legacyregistry s)
          = Some (legacyregistry s ++ map fqName all_opts)) as Hall.
  { rewrite registerAll_register_list.
    apply register_list_fresh; [apply all_opts_NoDup | done]. }
  eexists. split.
  { unfold Register. rewrite Honce, Hall. simpl. reflexivity. }
  split.
  { simpl. unfold Register at 1. rewrite Honce, Hall. simpl.
    by apply Register_times_done. }
  split; [by apply Register_done|].
  split; [done|].
  intros o Ho. simpl. rewrite registrations_app.
  rewrite registrations_absent by (by apply Hfresh).
  by rewrite registrations_all_opts.
Qed.

Lemma Register_idempotent_witness :
  exists s1,
    Register init = Some s1 /\
    Register_times 3 init = Some s1 /\
    Register s1 = Some s1 /\
    legacyregistry s1 = legacyregistry init ++ map fqName all_opts /\
    (forall o, o ∈ all_opts -> registrations o (legacyregistry s1) = 1%nat).
Proof.
  apply (Register_idempotent init 2).
  - reflexivity.
  - intros o _. simpl. apply not_elem_of_nil.
Defined.

Lemma WithLabelValues_cases m t s :
  WithLabelValues m t s =
  if registerMetrics s
  then if valid_labels m t then child else panics
  else noop.
Proof. unfold WithLabelValues, valid_labels. by destruct (registerMetrics s). Qed.

(** C5 (as amended).  [RecordRequestLatencies] panics exactly when
    [complete] is strictly after [received], the collectors are registered
    and a label value is not valid UTF-8.  When it returns, the result is
    true exactly when [complete] is strictly after [received]; it observes
    the float64 [complete.Sub(received).Seconds()], once, under the labels
    [(modelName, targetModelName)] when moreover the collectors are
    registered, and nothing otherwise; it logs an error exactly when it
    returns false; and no other collector changes. *)
Theorem RecordRequestLatencies_spec (m t : string) (received complete : time.Time)
    (s : State) (l : klog.Log) :
  (RecordRequestLatencies m t received complete s l = None <->
   received < complete /\ registerMetrics s = true /\ valid_labels m t = false) /\
  match RecordRequestLatencies m t received complete s l with
  | Some (ok, s', l') =>
      ok = bool_decide (received < complete) /\
      requestLatencies s' =
        (if ok && registerMetrics s
         then Observe m t (time.Seconds (time.Sub complete received)) (requestLatencies s)
         else requestLatencies s) /\
      total_samples (requestLatencies s') =
        (total_samples (requestLatencies s)
         + (if ok && registerMetrics s then 1 else 0))%nat /\
      (exists e, l' = l ++ [e] /\ klog.is_error e = negb ok) /\
      s' = set_requestLatencies (fun _ => requestLatencies s') s
  | None => True
  end.
Proof.
  unfold RecordRequestLatencies, time.After.
  rewrite WithLabelValues_cases.
  destruct (Z.ltb_spec received complete) as [Hlt|Hge]; simpl.
  - rewrite bool_decide_eq_true_2 by done.
    destruct (registerMetrics s) eqn:Hreg; [destruct (valid_labels m t) eqn:Hv|]; simpl.
    + split; [split; [done | by intros (_ & _ & ?)]|].
      split; [done|]. split; [done|].
      split; [rewrite total_samples_Observe; lia|].
      split; [eexists; split; [reflexivity|done]|]. done.
    + split; [done|done].
    + split; [split; [done | by intros (_ & ? & _)]|].
      split; [done|]. split; [done|]. split; [lia|].
      split; [eexists; split; [reflexivity|done]|]. by destruct s.
  - rewrite bool_decide_eq_false_2 by lia.
    split; [split; [done | intros (? & _); lia]|].
    split; [done|]. split; [done|]. split; [lia|].
    split; [eexists; split; [reflexivity|done]|]. by destruct s.
Qed.

End metrics_claims.

(** ** The Process loop *)

Module handlers_claims.
Import extProcPb handlers metrics_seq metrics_facts metrics_claims.

Section Process.

Variable Server : Type.
Variable HandleRequestHeaders :
  RequestContext -> ProcessingRequest -> RequestContext * option ProcessingResponse.
Variable HandleRequestBody HandleResponseHeaders HandleResponseBody :
  Server -> RequestContext -> ProcessingRequest ->
  Server * RequestContext * option ProcessingResponse * option error.
Variable srv : ProcessServer.

Local Abbreviation serve :=
  (handlers.serve Server HandleRequestHeaders HandleRequestBody
     HandleResponseHeaders HandleResponseBody srv).
Local Abbreviation loop :=
  (handlers.loop Server HandleRequestHeaders HandleRequestBody
     HandleResponseHeaders HandleResponseBody srv).
Local Abbreviation Process :=
  (handlers.Process Server HandleRequestHeaders HandleRequestBody
     HandleResponseHeaders HandleResponseBody srv).
Local Abbreviation handler_error :=
  (handlers.handler_error Server HandleRequestBody HandleResponseHeaders
     HandleResponseBody).
Local Abbreviation reply := (handlers.reply Server srv).
Local Abbreviation send := (handlers.send Server srv).
Local Abbreviation afterResponseBody := (handlers.afterResponseBody srv).

(** *** The tail of the loop body *)

Lemma send_sent i resp (st : State Server) :
  sent (state_of (send i resp st)) = sent st ++ [resp].
Proof. unfold handlers.send. by destruct (send_err srv i). Qed.

Lemma send_frame i resp (st : State Server) :
  reqCtx (state_of (send i resp st)) = reqCtx st /\
  collectors (state_of (send i resp st)) = collectors st /\
  server (state_of (send i resp st)) = server st.
Proof. unfold handlers.send. by destruct (send_err srv i). Qed.

Lemma reply_frame i resp err (st : State Server) :
  reqCtx (state_of (reply i resp err st)) = reqCtx st /\
  collectors (state_of (reply i resp err st)) = collectors st /\
  server (state_of (reply i resp err st)) = server st.
Proof.
  unfold handlers.reply.
  destruct err as [e|]; [|apply send_frame].
  destruct (status.Code e); simpl; try done.
  apply (send_frame i _ (add_log Server _ st)).
Qed.

Lemma send_no_panic i resp (st : State Server) : is_panic (send i resp st) = false.
Proof. unfold handlers.send. by destruct (send_err srv i). Qed.

Lemma reply_no_panic i resp err (st : State Server) :
  is_panic (reply i resp err st) = false.
Proof.
  unfold handlers.reply.
  destruct err as [e|]; [|apply send_no_panic].
  destruct (status.Code e); simpl; try done.
  apply send_no_panic.
Qed.


(** Rewrites the request context and the collectors found after [reply] or
    [send] to those of the state handed to it. *)
Ltac frame :=
  match goal with
  | |- context [handlers.reply _ _ ?j ?r ?e ?s] =>
      let H1 := fresh in let H2 := fresh in
      destruct (reply_frame j r e s) as (H1 & H2 & _);
      rewrite ?H1, ?H2; clear H1 H2
  | |- context [handlers.send _ _ ?j ?r ?s] =>
      let H1 := fresh in let H2 := fresh in
      destruct (send_frame j r s) as (H1 & H2 & _);
      rewrite ?H1, ?H2; clear H1 H2
  end.

Lemma reply_sent_le i resp err (st : State Server) :
  (length (sent (state_of (reply i resp err st))) <= S (length (sent st)))%nat.
Proof.
  unfold handlers.reply.
  destruct err as [e|].
  - destruct (status.Code e); simpl; try lia.
    rewrite send_sent, length_app. simpl. lia.
  - rewrite send_sent, length_app. simpl. lia.
Qed.

(** *** The recordings of a pass, case by case *)

Lemma afterRequestBody_cases err rc m :
  afterRequestBody err rc m =
  match err with
  | Some _ => (m, false)
  | None =>
      if metrics.registerMetrics m then
        if valid_labels (Model rc) (ResolvedTargetModel rc) then
          (metrics.set_requestSizes
             (metrics.Observe (Model rc) (ResolvedTargetModel rc)
                (float64.of_int (RequestSize rc)))
             (metrics.set_requestCounter
                (metrics.Inc (Model rc) (ResolvedTargetModel rc)) m),
           false)
        else (m, true)
      else (m, false)
  end.
Proof.
  unfold afterRequestBody, record.
  destruct err; [done|].
  unfold metrics.RecordRequestCounter. rewrite WithLabelValues_cases.
  destruct (metrics.registerMetrics m) eqn:Hreg.
  - destruct (valid_labels _ _) eqn:Hv; [|done].
    unfold metrics.RecordRequestSizes. rewrite WithLabelValues_cases.
    simpl. by rewrite Hreg, Hv.
  - unfold metrics.RecordRequestSizes. rewrite WithLabelValues_cases.
    by rewrite Hreg.
Qed.

Lemma afterResponseBody_cases i err rc m l :
  afterResponseBody i err rc m l =
  match err with
  | Some _ => (rc, m, l, false)
  | None =>
      if ResponseComplete rc then
        let rc' := set_ResponseCompleteTimestamp (now srv i) rc in
        let M := Model rc in
        let T := ResolvedTargetModel rc in
        let timely := RequestReceivedTimestamp rc <? now srv i in
        let l' :=
          l ++ [if timely
                then klog.Infof "Request has a receive time %v, and complete time %v"
                else klog.Errorf "request latency value error for model name %v, target model name %v: complete time %v is before received time %v"] in
        if metrics.registerMetrics m then
          if valid_labels M T then
            (rc',
             metrics.set_outputTokens
               (metrics.Observe M T
                  (float64.of_int (CompletionTokens (Usage (Response rc)))))
               (metrics.set_inputTokens
                  (metrics.Observe M T
                     (float64.of_int (PromptTokens (Usage (Response rc)))))
                  (metrics.set_responseSizes
                     (metrics.Observe M T (float64.of_int (ResponseSize rc)))
                     (if timely
                      then metrics.set_requestLatencies
                             (metrics.Observe M T
                                (time.Seconds
                                   (time.Sub (now srv i) (RequestReceivedTimestamp rc))))
                             m
                      else m))),
             l', false)
          else (rc', m, if timely then l else l', true)
        else (rc', m, l', false)
      else (rc, m, l, false)
  end.
Proof.
  unfold handlers.afterResponseBody, record.
  destruct err; [done|]. destruct (ResponseComplete rc); [|done].
  cbv zeta.
  cbn [RequestReceivedTimestamp ResponseCompleteTimestamp Model ResolvedTargetModel
       Response ResponseSize set_ResponseCompleteTimestamp].
  unfold metrics.RecordRequestLatencies, time.After.
  unfold metrics.RecordResponseSizes, metrics.RecordInputTokens,
    metrics.RecordOutputTokens.
  rewrite !WithLabelValues_cases.
  destruct (RequestReceivedTimestamp rc <? now srv i);
    destruct (valid_labels (Model rc) (ResolvedTargetModel rc)) eqn:Hv;
    destruct (metrics.registerMetrics m) eqn:Hreg; simpl;
    rewrite ?WithLabelValues_cases; simpl; rewrite ?Hreg, ?Hv; simpl;
    rewrite ?WithLabelValues_cases; simpl; rewrite ?Hreg, ?Hv; simpl;
    rewrite ?WithLabelValues_cases; simpl; rewrite ?Hreg, ?Hv; done.
Qed.

Lemma serve_sent_le i req (st : State Server) :
  (length (sent (state_of (serve i req st))) <= S (length (sent st)))%nat.
Proof.
  unfold handlers.serve.
  destruct (Request req) as [[h|b|h|b|t|t]|];
    [ | | | | simpl; lia ..].
  all: repeat match goal with
         | |- context [HandleRequestHeaders ?a ?b] =>
             destruct (HandleRequestHeaders a b) as [rc resp]
         | |- context [HandleRequestBody ?a ?b ?c] =>
             destruct (HandleRequestBody a b c) as [[[s rc] resp] err]
         | |- context [HandleResponseHeaders ?a ?b ?c] =>
             destruct (HandleResponseHeaders a b c) as [[[s rc] resp] err]
         | |- context [HandleResponseBody ?a ?b ?c] =>
             destruct (HandleResponseBody a b c) as [[[s rc] resp] err]
         | |- context [afterRequestBody ?a ?b ?c] =>
             destruct (afterRequestBody a b c) as [m [|]]
         | |- context [afterResponseBody ?a ?b ?c ?d ?e] =>
             destruct (afterResponseBody a b c d e) as [[[rc' m] l] [|]]
         end.
  all: cbv beta iota zeta; try (simpl; lia).
  all: match goal with |- context [reply ?j ?r ?e ?s] =>
         exact (reply_sent_le j r e s) end.
Qed.

(** *** Bounds on a run that meets a cancelled context *)

Lemma loop_cancelled_bounds k e :
  ctx_Err srv k = Some e ->
  forall msgs i (st : State Server), (i <= k)%nat ->
    (length (sent (final (loop i msgs st))) <= length (sent st) + (k - i))%nat /\
    (length msgs <= length (unread (loop i msgs st)) + (k - i))%nat.
Proof.
  intros Hk msgs.
  induction msgs as [|req rest IH]; intros i st Hi; simpl.
  - destruct (ctx_Err srv i); simpl; [lia|].
    case_decide; simpl; lia.
  - destruct (ctx_Err srv i) eqn:Hc; simpl; [lia|].
    assert (i < k)%nat as Hlt.
    { destruct (decide (i = k)) as [->|]; [congruence | lia]. }
    pose proof (serve_sent_le i req st) as Hs.
    destruct (serve i req st) as [st'|err st'|st']; simpl in *.
    + destruct (IH (S i) st' ltac:(lia)) as [H1 H2]. lia.
    + lia.
    + lia.
Qed.

(** C6.  At an iteration where the context is done, the loop returns the
    context's error at once: no envelope is received (all of [msgs] stay
    unread) and the state is as it was, so nothing is sent and nothing is
    recorded.  Hence a run of [Process] on a stream whose context is done
    at iteration [k] calls [Send] at most [k] times and receives at most
    [k] envelopes. *)
Theorem Process_cancelled (k : nat) (e : error) :
  ctx_Err srv k = Some e ->
  (forall msgs (st : State Server),
     loop k msgs st =
       {| result := Some e; final := st; unread := msgs; panicked := false |}) /\
  (forall s m l,
     (length (sent (final (Process s m l))) <= k)%nat /\
     (length (incoming srv) <= length (unread (Process s m l)) + k)%nat).
Proof.
  intros Hk. split.
  - intros msgs st. destruct msgs; simpl; by rewrite Hk.
  - intros s m l. unfold handlers.Process.
    destruct (loop_cancelled_bounds k e Hk (incoming srv) 0%nat
                {| reqCtx := RequestContext_zero; server := s; collectors := m;
                   log := l; sent := [] |} ltac:(lia)) as [H1 H2].
    simpl in *. split; lia.
Qed.

(** C9.  When the context is not done and [Recv] reports [io.EOF],
    [Process] returns nil and leaves the state as it was: no response is
    sent and no collector changes. *)
Theorem Process_EOF (i : nat) (st : State Server) :
  ctx_Err srv i = None ->
  closing srv = io_EOF ->
  result (loop i [] st) = None /\
  final (loop i [] st) = st /\
  sent (final (loop i [] st)) = sent st /\
  collectors (final (loop i [] st)) = collectors st.
Proof.
  intros Hc He. simpl. rewrite Hc. rewrite decide_True by done. done.
Qed.

(** C8.  An envelope that is none of RequestHeaders, RequestBody,
    ResponseHeaders and ResponseBody makes [Process] return an error of
    code [Unknown]; no handler runs, [Send] is not called, and the request
    context and the collectors stay as they were. *)
Theorem Process_unknown_request (i : nat) (req : ProcessingRequest)
    (rest : list ProcessingRequest) (st : State Server) :
  ctx_Err srv i = None ->
  is_handled req = false ->
  result (loop i (req :: rest) st) = Some (status_error codes.Unknown) /\
  sent (final (loop i (req :: rest) st)) = sent st /\
  collectors (final (loop i (req :: rest) st)) = collectors st /\
  reqCtx (final (loop i (req :: rest) st)) = reqCtx st /\
  unread (loop i (req :: rest) st) = rest.
Proof.
  intros Hc Hreq. simpl. rewrite Hc.
  unfold handlers.serve, is_handled in *.
  destruct (Request req) as [[h|b|h|b|t|t]|]; try discriminate; done.
Qed.

(** C7.  A ResponseBody envelope after which the response is not complete
    changes no collector, and the request context after the pass is the
    one the handler left: [Process] writes none of its fields, the
    completion timestamp included. *)
Theorem partial_ResponseBody (i : nat) (req : ProcessingRequest) (b : HttpBody)
    (st : State Server) s' rc' resp err :
  Request req = Some (ProcessingRequest_ResponseBody b) ->
  HandleResponseBody (server st) (reqCtx st) req = (s', rc', resp, err) ->
  ResponseComplete rc' = false ->
  collectors (state_of (serve i req st)) = collectors st /\
  reqCtx (state_of (serve i req st)) = rc' /\
  ResponseCompleteTimestamp (reqCtx (state_of (serve i req st)))
    = ResponseCompleteTimestamp rc'.
Proof.
  intros Hreq Hh Hpartial.
  unfold handlers.serve. rewrite Hreq, Hh.
  rewrite afterResponseBody_cases, Hpartial.
  destruct err; cbv beta iota zeta; frame; done.
Qed.

(** C2 (as amended).  The request counter and the request-size histogram
    change in one place only.  A RequestBody envelope whose handler returns
    no error, with the collectors registered and the labels
    [(Model, ResolvedTargetModel)] of the request context valid UTF-8,
    increments the counter by one and observes the request size once, both
    under those labels, before any response phase.  With collectors that
    are not registered the same envelope records nothing, and with
    registered collectors and a label that is not valid UTF-8 the pass
    panics with the collectors unchanged.  Every other pass, the one that
    completes the response included, leaves both as they were. *)
Theorem request_metrics_at_RequestBody (i : nat) (req : ProcessingRequest)
    (st : State Server) :
  let m := collectors st in
  let m' := collectors (state_of (serve i req st)) in
  match Request req with
  | Some (ProcessingRequest_RequestBody _) =>
      let '(_, rc', _, err) := HandleRequestBody (server st) (reqCtx st) req in
      match err with
      | None =>
          if metrics.registerMetrics m then
            if valid_labels (Model rc') (ResolvedTargetModel rc') then
              is_panic (serve i req st) = false /\
              metrics.requestCounter m' =
                metrics.Inc (Model rc') (ResolvedTargetModel rc')
                  (metrics.requestCounter m) /\
              metrics.total_count (metrics.requestCounter m') =
                (metrics.total_count (metrics.requestCounter m) + 1)%N /\
              metrics.requestSizes m' =
                metrics.Observe (Model rc') (ResolvedTargetModel rc')
                  (float64.of_int (RequestSize rc')) (metrics.requestSizes m) /\
              metrics.total_samples (metrics.requestSizes m') =
                S (metrics.total_samples (metrics.requestSizes m))
            else
              is_panic (serve i req st) = true /\ m' = m
          else
            is_panic (serve i req st) = false /\ m' = m
      | Some _ =>
          metrics.requestCounter m' = metrics.requestCounter m /\
          metrics.requestSizes m' = metrics.requestSizes m
      end
  | _ =>
      metrics.requestCounter m' = metrics.requestCounter m /\
      metrics.requestSizes m' = metrics.requestSizes m
  end.
Proof.
  cbv zeta. unfold handlers.serve.
  destruct (Request req) as [[h|b|h|b|t|t]|]; [ | | | | done ..].
  - destruct (HandleRequestHeaders _ req) as [rc resp]. cbv beta iota.
    frame. done.
  - destruct (HandleRequestBody _ _ req) as [[[s rc] resp] err]. cbv beta iota.
    rewrite afterRequestBody_cases.
    destruct err; [cbv beta iota zeta; frame; done|].
    destruct (metrics.registerMetrics (collectors st));
      [destruct (valid_labels _ _)|]; cbv beta iota zeta.
    + rewrite reply_no_panic. frame. simpl.
      rewrite total_count_Inc, total_samples_Observe. done.
    + done.
    + rewrite reply_no_panic. frame. done.
  - destruct (HandleResponseHeaders _ _ req) as [[[s rc] resp] err]. cbv beta iota.
    frame. done.
  - destruct (HandleResponseBody _ _ req) as [[[s rc] resp] err]. cbv beta iota.
    rewrite afterResponseBody_cases.
    destruct err; [cbv beta iota zeta; frame; done|].
    destruct (ResponseComplete rc); [|cbv beta iota zeta; frame; done].
    cbv zeta.
    destruct (metrics.registerMetrics (collectors st));
      [destruct (valid_labels _ _)|]; cbv beta iota zeta;
      try frame; try done.
    by destruct (_ <? _).
Qed.


(** C4 (as amended).  With the collectors registered and the labels valid
    UTF-8, when the completed response carried no usage, so that both
    counts of the request context are zero, [Process] still records one
    input-token and one output-token observation, each of value 0, under
    the labels [(Model, ResolvedTargetModel)]. *)
Theorem completed_without_usage (i : nat) (req : ProcessingRequest) (b : HttpBody)
    (st : State Server) s' rc' resp :
  Request req = Some (ProcessingRequest_ResponseBody b) ->
  HandleResponseBody (server st) (reqCtx st) req = (s', rc', resp, None) ->
  ResponseComplete rc' = true ->
  metrics.registerMetrics (collectors st) = true ->
  valid_labels (Model rc') (ResolvedTargetModel rc') = true ->
  Usage (Response rc') = {| PromptTokens := 0; CompletionTokens := 0 |} ->
  let m := collectors st in
  let m' := collectors (state_of (serve i req st)) in
  let M := Model rc' in
  let T := ResolvedTargetModel rc' in
  metrics.samples (metrics.inputTokens m') M T =
    metrics.samples (metrics.inputTokens m) M T ++ [0%Q] /\
  metrics.total_samples (metrics.inputTokens m') =
    S (metrics.total_samples (metrics.inputTokens m)) /\
  metrics.samples (metrics.outputTokens m') M T =
    metrics.samples (metrics.outputTokens m) M T ++ [0%Q] /\
  metrics.total_samples (metrics.outputTokens m') =
    S (metrics.total_samples (metrics.outputTokens m)).
Proof.
  intros Hreq Hh Hdone Hreg Hvalid Husage. cbv zeta.
  unfold handlers.serve. rewrite Hreq, Hh.
  rewrite afterResponseBody_cases, Hdone. cbv zeta. rewrite Hreg, Hvalid, Husage.
  cbv beta iota zeta. frame.
  change (float64.of_int 0) with 0%Q.
  destruct (_ <? _); simpl;
    rewrite !samples_Observe, !total_samples_Observe, !decide_True by done;
    done.
Qed.

(** C1 (as amended).  When the handler of an envelope returns an error [e]:
    if [status.Code(e)] is [ResourceExhausted], [Process] sends the
    immediate response 429 and goes on with the next iteration (it returns
    an error of code [Unknown] only if that [Send] fails); for every other
    code it sends nothing and returns the error
    [status.Errorf(status.Code(e), ...)] to the stream. *)
Theorem handler_error_outcome (i : nat) (req : ProcessingRequest)
    (rest : list ProcessingRequest) (st : State Server) (e : error) :
  ctx_Err srv i = None ->
  handler_error req st = Some e ->
  exists st',
    sent st' = sent st ++
      (if decide (status.Code e = codes.ResourceExhausted)
       then [Some tooManyRequests] else []) /\
    loop i (req :: rest) st =
      if decide (status.Code e = codes.ResourceExhausted) then
        match send_err srv i with
        | None => loop (S i) rest st'
        | Some _ =>
            {| result := Some (status_error codes.Unknown);
               final := add_log Server (klog.Errorf "send error %v") st';
               unread := rest;
               panicked := false |}
        end
      else
        {| result := status.Errorf (status.Code e); final := st'; unread := rest;
           panicked := false |}.
Proof.
  intros Hc He. simpl. rewrite Hc.
  unfold handlers.serve, handlers.handler_error in *.
  destruct (Request req) as [[h|b|h|b|t|t]|]; try discriminate.
  all: match type of He with
       | (?f ?a ?b ?c).2 = _ => destruct (f a b c) as [[[s rc] resp] err]
       end; simpl in He; subst err; cbv beta iota.
  1: rewrite afterRequestBody_cases; cbv beta iota zeta.
  3: rewrite afterResponseBody_cases; cbv beta iota zeta.
  all: unfold handlers.reply, handlers.send;
       destruct (decide (status.Code e = codes.ResourceExhausted)) as [E|E];
       [ rewrite E; destruct (send_err srv i);
         eexists; (split; [|reflexivity]); simpl; rewrite ?app_nil_r; reflexivity
       | destruct (status.Code e); try congruence;
         eexists; (split; [|reflexivity]); simpl; rewrite ?app_nil_r; reflexivity ].
Qed.

End Process.

End handlers_claims.

(** ** Runs on sample streams *)

Module examples_claims.
Import extProcPb handlers examples examples_seq handlers_claims.

Local Abbreviation serve :=
  (handlers.serve Server HandleRequestHeaders HandleRequestBody
     HandleResponseHeaders HandleResponseBody).
Local Abbreviation loop :=
  (handlers.loop Server HandleRequestHeaders HandleRequestBody
     HandleResponseHeaders HandleResponseBody).

(** C1, counterexample.  The scheduler has no pod and returns an error of
    code [Unavailable]: [Process] returns that error to the stream and
    sends no immediate response, where the claim asks for a sent 503 and a
    nil result. *)
Lemma unavailable_is_propagated :
  let o := run unavailable (stream [requestHeaders; requestBody] ticking) in
  result o = Some (status_error codes.Unavailable) /\
  (forall r, r ∈ sent (final o) -> is_immediate r = false) /\
  ~ (result o = None /\
     Some (immediate envoyTypePb.StatusCode_ServiceUnavailable) ∈ sent (final o)).
Proof.
  cbv zeta. split; [by vm_compute|]. split.
  - intros r Hr. vm_compute in Hr.
    apply list_elem_of_singleton in Hr. by subst r.
  - intros [H _]. vm_compute in H. discriminate.
Qed.

Lemma handler_error_outcome_witness :
  exists st',
    sent st' = sent (fresh shedding) ++ [Some tooManyRequests] /\
    loop (stream [requestBody; requestTrailers] ticking) 0 [requestBody; requestTrailers]
      (fresh shedding)
    = loop (stream [requestBody; requestTrailers] ticking) 1 [requestTrailers] st'.
Proof.
  apply (handler_error_outcome Server HandleRequestHeaders HandleRequestBody
           HandleResponseHeaders HandleResponseBody
           (stream [requestBody; requestTrailers] ticking)
           0 requestBody [requestTrailers] (fresh shedding)
           (status_error codes.ResourceExhausted)); reflexivity.
Defined.

(** C2, counterexample.  After [Register], the client closes the stream
    after the request body: the response never completes, yet the request
    counter stands at one and the request size has been observed. *)
Lemma request_counted_without_response :
  let o := serve_registered serving (stream [requestHeaders; requestBody] ticking) in
  let m := collectors (final o) in
  result o = None /\
  panicked o = false /\
  ResponseComplete (reqCtx (final o)) = false /\
  metrics.count (metrics.requestCounter m) "sql-lora" "sql-lora-1fdg2" = 1%N /\
  metrics.samples (metrics.requestSizes m) "sql-lora" "sql-lora-1fdg2" = [25%Q].
Proof. by vm_compute. Qed.



(** C4, counterexample.  After [Register], the last chunk of the response
    carries no usage; the request context keeps both counts at zero, and
    one input-token and one output-token observation, of value 0, are
    recorded all the same. *)
Lemma tokens_observed_without_usage :
  let o := serve_registered serving
             (stream [requestHeaders; requestBody; responseHeaders; responseChunk;
                      responseEnd] ticking) in
  let m := collectors (final o) in
  ResponseComplete (reqCtx (final o)) = true /\
  Usage (Response (reqCtx (final o))) = {| PromptTokens := 0; CompletionTokens := 0 |} /\
  metrics.samples (metrics.inputTokens m) "sql-lora" "sql-lora-1fdg2" = [0%Q] /\
  metrics.samples (metrics.outputTokens m) "sql-lora" "sql-lora-1fdg2" = [0%Q] /\
  ~ (metrics.total_samples (metrics.inputTokens m) = 0%nat /\
     metrics.total_samples (metrics.outputTokens m) = 0%nat).
Proof.
  cbv zeta. repeat split; try by vm_compute.
  intros [H _]. vm_compute in H. discriminate.
Qed.

Lemma completed_without_usage_witness :
  let srv := stream [requestHeaders; requestBody; responseHeaders; responseEnd] ticking in
  let m' := collectors (state_of (serve srv 3 responseEnd served_registered)) in
  metrics.samples (metrics.inputTokens m') "sql-lora" "sql-lora-1fdg2" = [0%Q] /\
  metrics.samples (metrics.outputTokens m') "sql-lora" "sql-lora-1fdg2" = [0%Q].
Proof.
  cbv zeta.
  pose proof (completed_without_usage Server HandleRequestHeaders HandleRequestBody
           HandleResponseHeaders HandleResponseBody
           (stream [requestHeaders; requestBody; responseHeaders; responseEnd] ticking)
           3 responseEnd {| Body := "data: [DONE]"; EndOfStream := true |}
           served_registered
           _ _ _ eq_refl eq_refl eq_refl eq_refl eq_refl eq_refl) as (H1 & _ & H3 & _).
  split; [exact H1 | exact H3].
Defined.

(** C5, counterexample.  With [complete] ten milliseconds after
    [received]: on collectors that were never registered the call returns
    true and observes nothing; on registered collectors a model name that
    is not valid UTF-8 makes it panic; and the largest elapsed time is
    observed as a float64 that is not the exact number of seconds. *)
Lemma latency_true_without_observation :
  metrics.RecordRequestLatencies "m10" "t10" 0 10000000 metrics.init []
    = Some (true, metrics.init,
            [klog.Infof "Request has a receive time %v, and complete time %v"]) /\
  metrics.RecordRequestLatencies bad_label "t10" 0 10000000 registered [] = None /\
  ~ (time.Seconds time.maxDuration == time.maxDuration # 1000000000)%Q.
Proof.
  split; [by vm_compute|]. split; [by vm_compute|].
  intros H. vm_compute in H. discriminate.
Qed.

Lemma Process_cancelled_witness :
  let srv := cancelled_at 1 [requestHeaders; requestBody] in
  loop srv 1 [requestBody] (fresh serving)
    = {| result := Some context_Canceled; final := fresh serving;
         unread := [requestBody]; panicked := false |} /\
  (length (sent (final (run serving srv))) <= 1)%nat.
Proof.
  cbv zeta.
  pose proof (Process_cancelled Server HandleRequestHeaders HandleRequestBody
           HandleResponseHeaders HandleResponseBody
           (cancelled_at 1 [requestHeaders; requestBody]) 1 context_Canceled
           eq_refl) as [H1 H2].
  split; [apply H1 | apply (H2 serving metrics.init [])].
Defined.

Lemma Process_EOF_witness :
  result (loop (stream [] ticking) 0 [] (fresh serving)) = None /\
  final (loop (stream [] ticking) 0 [] (fresh serving)) = fresh serving /\
  sent (final (loop (stream [] ticking) 0 [] (fresh serving))) = [] /\
  collectors (final (loop (stream [] ticking) 0 [] (fresh serving))) = metrics.init.
Proof.
  apply (Process_EOF Server HandleRequestHeaders HandleRequestBody
           HandleResponseHeaders HandleResponseBody (stream [] ticking)
           0 (fresh serving)); reflexivity.
Defined.

Lemma Process_unknown_request_witness :
  let o := loop (stream [requestTrailers; requestBody] ticking) 0
             [requestTrailers; requestBody] (fresh serving) in
  result o = Some (status_error codes.Unknown) /\
  sent (final o) = [] /\
  collectors (final o) = metrics.init /\
  reqCtx (final o) = RequestContext_zero /\
  unread o = [requestBody].
Proof.
  apply (Process_unknown_request Server HandleRequestHeaders HandleRequestBody
           HandleResponseHeaders HandleResponseBody
           (stream [requestTrailers; requestBody] ticking)
           0 requestTrailers [requestBody] (fresh serving)); reflexivity.
Defined.

Lemma partial_ResponseBody_witness :
  let srv := stream [requestHeaders; requestBody; responseHeaders; responseChunk] ticking in
  let st' := state_of (serve srv 3 responseChunk served) in
  collectors st' = collectors served /\
  ResponseSize (reqCtx st') = 18 /\
  ResponseCompleteTimestamp (reqCtx st') = time.zero.
Proof.
  cbv zeta.
  pose proof (partial_ResponseBody Server HandleRequestHeaders HandleRequestBody
           HandleResponseHeaders HandleResponseBody
           (stream [requestHeaders; requestBody; responseHeaders; responseChunk] ticking)
           3 responseChunk {| Body := "data: {text:hello}"; EndOfStream := false |} served
           _ _ _ _ eq_refl eq_refl eq_refl) as (H1 & H2 & H3).
  split; [exact H1|].
  split; [rewrite H2; by vm_compute | rewrite H3; by vm_compute].
Defined.

End examples_claims.

(** ** More on the collectors *)

Module metrics_more.
Import metrics metrics_seq metrics_facts time_facts metrics_claims.

Lemma RecordRequestCounter_cases m t s :
  RecordRequestCounter m t s =
  if registerMetrics s
  then if valid_labels m t then Some (set_requestCounter (Inc m t) s) else None
  else Some s.
Proof.
  unfold RecordRequestCounter. rewrite WithLabelValues_cases.
  by destruct (registerMetrics s), (valid_labels m t).
Qed.

Lemma RecordRequestSizes_cases m t n s :
  RecordRequestSizes m t n s =
  if registerMetrics s
  then if valid_labels m t
       then Some (set_requestSizes (Observe m t (float64.of_int n)) s) else None
  else Some s.
Proof.
  unfold RecordRequestSizes. rewrite WithLabelValues_cases.
  by destruct (registerMetrics s), (valid_labels m t).
Qed.

(** X1.  A sequence of calls of [RecordRequestCounter] panics exactly when
    the collectors are registered and a label of one of the requests is
    not valid UTF-8.  When it returns, the count of a label pair has grown
    by the number of requests of the list with that pair if the collectors
    are registered, and not at all if they are not; the five histograms
    and the registration are as they were. *)
Theorem RecordRequestCounter_all_count (reqs : list (string * string)) (s : State)
    (m t : string) :
  (RecordRequestCounter_all reqs s = None <->
   registerMetrics s = true /\ Exists (fun r => valid_labels r.1 r.2 = false) reqs) /\
  match RecordRequestCounter_all reqs s with
  | Some s' =>
      count (requestCounter s') m t =
        (count (requestCounter s) m t
         + (if registerMetrics s
            then N.of_nat (length (filter (fun r => r = (m, t)) reqs))
            else 0))%N /\
      requestLatencies s' = requestLatencies s /\
      requestSizes s' = requestSizes s /\
      responseSizes s' = responseSizes s /\
      inputTokens s' = inputTokens s /\
      outputTokens s' = outputTokens s /\
      registerMetrics s' = registerMetrics s /\
      legacyregistry s' = legacyregistry s
  | None => True
  end.
Proof.
  revert s. induction reqs as [|[m' t'] reqs IH]; intros s.
  - simpl. split; [|destruct (registerMetrics s); repeat split; lia].
    split; [done|]. intros [_ H]. by apply Exists_nil in H.
  - cbn [RecordRequestCounter_all fst snd]. rewrite RecordRequestCounter_cases.
    destruct (registerMetrics s) eqn:Hreg.
    + destruct (valid_labels m' t') eqn:Hv.
      * cbn [mbind option_bind].
        destruct (IH (set_requestCounter (Inc m' t') s)) as [IH1 IH2].
        cbn [registerMetrics set_requestCounter] in IH1, IH2.
        rewrite Hreg in IH1, IH2. split.
        -- rewrite IH1. split.
           ++ intros [_ H]. split; [done|]. by apply Exists_cons_tl.
           ++ intros [_ H]. split; [done|].
              apply Exists_cons in H as [H|H]; [|done].
              simpl in H. congruence.
        -- destruct (RecordRequestCounter_all reqs _) as [s'|]; [|done].
           destruct IH2 as (-> & -> & -> & -> & -> & -> & -> & ->).
           simpl. rewrite count_Inc, filter_cons.
           destruct (decide ((m', t') = (m, t))); simpl; repeat split; lia.
      * cbn [mbind option_bind]. split; [|done].
        split; [|done]. intros _. split; [done|]. by apply Exists_cons_hd.
    + cbn [mbind option_bind]. destruct (IH s) as [IH1 IH2].
      rewrite Hreg in IH1, IH2. split; [|done].
      rewrite IH1. split; intros [? _]; done.
Qed.

(** X2.  A sequence of calls of [RecordRequestSizes] panics exactly when
    the collectors are registered and a label of one of the requests is
    not valid UTF-8.  When it returns on registered collectors, the series
    of a label pair is its old samples followed by the sizes, as float64,
    of the requests with that pair, in the order of the calls, and the
    histogram holds one more sample per request; on collectors that are
    not registered nothing is observed. *)
Theorem RecordRequestSizes_all_samples (reqs : list (string * string * Z)) (s : State)
    (m t : string) :
  (RecordRequestSizes_all reqs s = None <->
   registerMetrics s = true /\
   Exists (fun r => valid_labels r.1.1 r.1.2 = false) reqs) /\
  match RecordRequestSizes_all reqs s with
  | Some s' =>
      samples (requestSizes s') m t =
        samples (requestSizes s) m t
        ++ (if registerMetrics s
            then map (fun r => float64.of_int r.2) (labelled m t reqs)
            else []) /\
      total_samples (requestSizes s') =
        (total_samples (requestSizes s)
         + (if registerMetrics s then length reqs else 0))%nat /\
      registerMetrics s' = registerMetrics s
  | None => True
  end.
Proof.
  revert s. induction reqs as [|[[m' t'] n] reqs IH]; intros s.
  - simpl. split.
    + split; [done|]. intros [_ H]. by apply Exists_nil in H.
    + destruct (registerMetrics s); rewrite app_nil_r; repeat split; lia.
  - cbn [RecordRequestSizes_all fst snd]. rewrite RecordRequestSizes_cases.
    destruct (registerMetrics s) eqn:Hreg.
    + destruct (valid_labels m' t') eqn:Hv.
      * cbn [mbind option_bind].
        destruct (IH (set_requestSizes (Observe m' t' (float64.of_int n)) s))
          as [IH1 IH2].
        cbn [registerMetrics set_requestSizes] in IH1, IH2.
        rewrite Hreg in IH1, IH2. split.
        -- rewrite IH1. split.
           ++ intros [_ H]. split; [done|]. by apply Exists_cons_tl.
           ++ intros [_ H]. split; [done|].
              apply Exists_cons in H as [H|H]; [|done].
              simpl in H. congruence.
        -- destruct (RecordRequestSizes_all reqs _) as [s'|]; [|done].
           destruct IH2 as (-> & -> & ->).
           simpl. rewrite samples_Observe, total_samples_Observe.
           unfold labelled. rewrite filter_cons. simpl.
           split; [|split; [lia|done]].
           destruct (decide ((m', t') = (m, t))); simpl.
           ++ by rewrite <- app_assoc.
           ++ by rewrite app_nil_r.
      * cbn [mbind option_bind]. split; [|done].
        split; [|done]. intros _. split; [done|]. by apply Exists_cons_hd.
    + cbn [mbind option_bind]. destruct (IH s) as [IH1 IH2].
      rewrite Hreg in IH1, IH2. split; [|done].
      rewrite IH1. split; intros [? _]; done.
Qed.

(** X27.  On registered collectors and with valid labels,
    [RecordRequestSizes] records a size of at most 53 bits exactly: the
    sample appended to the series of the label pair is the size itself.
    Beyond that the conversion to float64 rounds: [2^53 + 1] is recorded as
    [2^53]. *)
Theorem RecordRequestSizes_exact (m t : string) (reqSize : Z) (s : State) :
  registerMetrics s = true ->
  valid_labels m t = true ->
  - 2 ^ 53 <= reqSize <= 2 ^ 53 ->
  (exists s',
     RecordRequestSizes m t reqSize s = Some s' /\
     samples (requestSizes s') m t = samples (requestSizes s) m t ++ [inject_Z reqSize]) /\
  (exists s',
     RecordRequestSizes m t (2 ^ 53 + 1) s = Some s' /\
     samples (requestSizes s') m t = samples (requestSizes s) m t ++ [inject_Z (2 ^ 53)]).
Proof.
  intros Hreg Hv Hn. rewrite !RecordRequestSizes_cases, Hreg, Hv.
  split; eexists; (split; [reflexivity|]); simpl;
    rewrite samples_Observe, decide_True by done.
  - by rewrite float64_facts.of_int_exact_53.
  - done.
Qed.

Lemma RecordRequestSizes_exact_witness :
  exists s',
    RecordRequestSizes "m10" "t10" 25 examples.registered = Some s' /\
    samples (requestSizes s') "m10" "t10" = [25%Q].
Proof.
  destruct (RecordRequestSizes_exact "m10" "t10" 25 examples.registered
              eq_refl eq_refl ltac:(lia)) as [(s' & H1 & H2) _].
  exists s'. split; [exact H1|]. rewrite H2. reflexivity.
Defined.

Lemma register_list_clash os : forall r,
  (exists o, o ∈ os /\ fqName o ∈ r) -> register_list os r = None.
Proof.
  induction os as [|o0 os IH]; intros r (o & Ho & Hr); simpl.
  - by apply elem_of_nil in Ho.
  - unfold MustRegister. destruct (decide (fqName o0 ∈ r)) as [|Hn]; [done|].
    simpl. apply IH.
    apply elem_of_cons in Ho as [->|Ho]; [done|].
    exists o. split; [done|]. apply elem_of_app. by left.
Qed.

Lemma register_list_prefix os : forall r r',
  register_list os r = Some r' -> r `prefix_of` r'.
Proof.
  induction os as [|o os IH]; intros r r' H; simpl in H.
  - by inversion H.
  - unfold MustRegister in H. destruct (decide (fqName o ∈ r)); [done|].
    simpl in H. apply IH in H.
    etrans; [|exact H]. by apply prefix_app_r.
Qed.

(** X3.  [Register] returns without a panic exactly when registration has
    run already or none of the six collectors is in the registry: once the
    name of one of them is taken, the first call panics. *)
Theorem Register_succeeds_iff (s : State) :
  is_Some (Register s) <->
  registerMetrics s = true \/
  (forall o, o ∈ all_opts -> fqName o ∉ legacyregistry s).
Proof.
  unfold Register. destruct (registerMetrics s) eqn:Honce.
  - split; [by left | by eexists].
  - rewrite registerAll_register_list. split.
    + intros Hsome. right. intros o Ho Hin.
      rewrite (register_list_clash all_opts (legacyregistry s)) in Hsome
        by (by exists o).
      by destruct Hsome.
    + intros [?|Hfresh]; [done|].
      rewrite register_list_fresh; [by eexists | apply all_opts_NoDup | done].
Qed.

(** X4.  A call of [Register] that returns leaves the values of the six
    collectors as they were, has the registration marked as run, and only
    appends to the registry. *)
Theorem Register_keeps_values (s s' : State) :
  Register s = Some s' ->
  requestCounter s' = requestCounter s /\
  requestLatencies s' = requestLatencies s /\
  requestSizes s' = requestSizes s /\
  responseSizes s' = responseSizes s /\
  inputTokens s' = inputTokens s /\
  outputTokens s' = outputTokens s /\
  registerMetrics s' = true /\
  legacyregistry s `prefix_of` legacyregistry s'.
Proof.
  unfold Register. destruct (registerMetrics s) eqn:Honce.
  - intros [= <-]. by rewrite Honce.
  - rewrite registerAll_register_list.
    destruct (register_list all_opts (legacyregistry s)) as [r|] eqn:Hr; [|done].
    simpl. intros [= <-]. simpl.
    repeat split. by apply (register_list_prefix all_opts).
Qed.

Lemma Register_keeps_values_witness :
  exists s', Register init = Some s' /\
    requestCounter s' = requestCounter init /\
    registerMetrics s' = true /\
    legacyregistry init `prefix_of` legacyregistry s'.
Proof.
  eexists. split; [reflexivity|].
  pose proof (Register_keeps_values init _ eq_refl) as (H1 & _ & _ & _ & _ & _ & H7 & H8).
  split; [exact H1|]. split; [exact H7 | exact H8].
Defined.

Lemma all_positive_Observe (h : gmap (string * string) (list Q)) m t v :
  (0 < v)%Q -> all_positive h -> all_positive (Observe m t v h).
Proof.
  intros Hv Hh m' t' v'. rewrite samples_Observe.
  intros [Hin|Hin]%elem_of_app; [by apply (Hh m' t')|].
  case_decide; [|by apply elem_of_nil in Hin].
  apply list_elem_of_singleton in Hin. by subst.
Qed.

Lemma Seconds_Sub_positive (received complete : time.Time) :
  received < complete ->
  (0 < time.Seconds (time.Sub complete received))%Q.
Proof.
  intros Hlt. apply Seconds_positive. rewrite Sub_after by done.
  unfold time.maxDuration. lia.
Qed.

(** X5.  [RecordRequestLatencies] keeps the latency histogram free of
    samples that are zero or negative: if all its samples were strictly
    positive before a call that returns, they are after it. *)
Theorem RecordRequestLatencies_positive (m t : string) (received complete : time.Time)
    (s : State) (l : klog.Log) :
  all_positive (requestLatencies s) ->
  match RecordRequestLatencies m t received complete s l with
  | Some (_, s', _) => all_positive (requestLatencies s')
  | None => True
  end.
Proof.
  intros Hpos. unfold RecordRequestLatencies, time.After.
  destruct (Z.ltb_spec received complete) as [Hlt|Hge]; simpl; [|done].
  destruct (WithLabelValues m t s); simpl; [done| |done].
  apply all_positive_Observe; [|done].
  by apply Seconds_Sub_positive.
Qed.

Lemma RecordRequestLatencies_positive_witness :
  all_positive (requestLatencies examples.registered) /\
  all_positive
    (Observe "m10" "t10" (time.Seconds 10000000) (requestLatencies examples.registered)).
Proof.
  assert (all_positive (requestLatencies examples.registered)) as H.
  { intros m t v Hv. by apply elem_of_nil in Hv. }
  split; [exact H|].
  exact (RecordRequestLatencies_positive "m10" "t10" 0 10000000 examples.registered [] H).
Defined.

Lemma sample_count_Observe (h : gmap (string * string) (list Q)) m t v m' t' :
  sample_count (Observe m t v h) m' t' =
  (sample_count h m' t' + (if decide ((m, t) = (m', t')) then 1 else 0))%nat.
Proof.
  unfold sample_count. rewrite samples_Observe, length_app.
  by case_decide.
Qed.

(** X6.  [MonitorResponse] panics exactly when the collectors are
    registered and a label is not valid UTF-8.  When it returns on
    registered collectors it has appended the input count to the
    input-token series and the output count to the output-token series of
    [(modelName, targetModelName)], one sample each and as float64, and
    touched no other series; on collectors that are not registered it
    observes nothing.  The other four collectors and the registration are
    as they were. *)
Theorem MonitorResponse_spec (m t : string) (inputToken outputToken : Z) (s : State) :
  (MonitorResponse m t inputToken outputToken s = None <->
   registerMetrics s = true /\ valid_labels m t = false) /\
  match MonitorResponse m t inputToken outputToken s with
  | Some s' =>
      (forall m' t',
         samples (inputTokens s') m' t' =
           samples (inputTokens s) m' t'
           ++ (if registerMetrics s && bool_decide ((m, t) = (m', t'))
               then [float64.of_int inputToken] else []) /\
         samples (outputTokens s') m' t' =
           samples (outputTokens s) m' t'
           ++ (if registerMetrics s && bool_decide ((m, t) = (m', t'))
               then [float64.of_int outputToken] else [])) /\
      total_samples (inputTokens s') =
        (total_samples (inputTokens s) + (if registerMetrics s then 1 else 0))%nat /\
      total_samples (outputTokens s') =
        (total_samples (outputTokens s) + (if registerMetrics s then 1 else 0))%nat /\
      requestCounter s' = requestCounter s /\
      requestLatencies s' = requestLatencies s /\
      requestSizes s' = requestSizes s /\
      responseSizes s' = responseSizes s /\
      registerMetrics s' = registerMetrics s /\
      legacyregistry s' = legacyregistry s
  | None => True
  end.
Proof.
  unfold MonitorResponse. rewrite WithLabelValues_cases.
  destruct (registerMetrics s) eqn:Hreg; [destruct (valid_labels m t) eqn:Hv|].
  - cbn [mbind option_bind]. rewrite WithLabelValues_cases.
    cbn [registerMetrics set_inputTokens]. rewrite Hreg, Hv.
    split; [split; [done | by intros [_ ?]]|].
    simpl. rewrite !total_samples_Observe.
    split; [|repeat split; try done; lia].
    intros m' t'. rewrite !samples_Observe.
    case_decide; [rewrite bool_decide_eq_true_2 by done
                 |rewrite bool_decide_eq_false_2 by done]; done.
  - done.
  - cbn [mbind option_bind]. rewrite WithLabelValues_cases, Hreg.
    split; [split; [done | by intros [? _]]|].
    simpl. split; [|repeat split; try done; lia].
    intros m' t'. by rewrite !app_nil_r.
Qed.

(** *** The order on collector states *)

Lemma extends_refl s : extends s s.
Proof. unfold extends. by repeat split. Qed.

Lemma extends_trans s1 s2 s3 : extends s1 s2 -> extends s2 s3 -> extends s1 s3.
Proof.
  intros (A1 & A2 & A3 & A4 & A5 & A6 & A7 & A8)
         (B1 & B2 & B3 & B4 & B5 & B6 & B7 & B8).
  unfold extends. repeat split; intros;
    try (etrans; [|eauto]; eauto; fail); congruence.
Qed.

Lemma samples_Observe_prefix (h : gmap (string * string) (list Q)) m t v m' t' :
  samples h m' t' `prefix_of` samples (Observe m t v h) m' t'.
Proof. rewrite samples_Observe. by apply prefix_app_r. Qed.

(** *** The empty collectors *)

Lemma all_positive_empty : all_positive ∅.
Proof. intros m t v Hv. by apply elem_of_nil in Hv. Qed.

Lemma requests_in_step_init : requests_in_step init.
Proof. intros m t. reflexivity. Qed.

Lemma responses_in_step_init : responses_in_step init.
Proof. intros m t. unfold sample_count, samples. simpl. rewrite lookup_empty. simpl. lia. Qed.

End metrics_more.

(** ** More on the Process loop *)

Module handlers_more.
Import extProcPb handlers handlers_seq metrics_seq metrics_facts time_facts.
Import metrics_claims handlers_claims metrics_more.

Section Process.

Variable Server : Type.
Variable HandleRequestHeaders :
  RequestContext -> ProcessingRequest -> RequestContext * option ProcessingResponse.
Variable HandleRequestBody HandleResponseHeaders HandleResponseBody :
  Server -> RequestContext -> ProcessingRequest ->
  Server * RequestContext * option ProcessingResponse * option error.
Variable srv : ProcessServer.

Local Abbreviation serve :=
  (handlers.serve Server HandleRequestHeaders HandleRequestBody
     HandleResponseHeaders HandleResponseBody srv).
Local Abbreviation loop :=
  (handlers.loop Server HandleRequestHeaders HandleRequestBody
     HandleResponseHeaders HandleResponseBody srv).
Local Abbreviation Process :=
  (handlers.Process Server HandleRequestHeaders HandleRequestBody
     HandleResponseHeaders HandleResponseBody srv).
Local Abbreviation handler_error :=
  (handlers.handler_error Server HandleRequestBody HandleResponseHeaders
     HandleResponseBody).
Local Abbreviation handler_response :=
  (handlers_seq.handler_response Server HandleRequestHeaders HandleRequestBody
     HandleResponseHeaders HandleResponseBody srv).
Local Abbreviation reply := (handlers.reply Server srv).
Local Abbreviation send := (handlers.send Server srv).
Local Abbreviation afterResponseBody := (handlers.afterResponseBody srv).

(** The collectors after the recordings at a RequestBody envelope, and
    after those at a completed response, when no label is refused. *)
Local Abbreviation requested rc m :=
  (metrics.set_requestSizes
     (metrics.Observe (Model rc) (ResolvedTargetModel rc)
        (float64.of_int (RequestSize rc)))
     (metrics.set_requestCounter
        (metrics.Inc (Model rc) (ResolvedTargetModel rc)) m)).

Local Abbreviation completed rc t m :=
  (metrics.set_outputTokens
     (metrics.Observe (Model rc) (ResolvedTargetModel rc)
        (float64.of_int (CompletionTokens (Usage (Response rc)))))
     (metrics.set_inputTokens
        (metrics.Observe (Model rc) (ResolvedTargetModel rc)
           (float64.of_int (PromptTokens (Usage (Response rc)))))
        (metrics.set_responseSizes
           (metrics.Observe (Model rc) (ResolvedTargetModel rc)
              (float64.of_int (ResponseSize rc)))
           (if RequestReceivedTimestamp rc <? t
            then metrics.set_requestLatencies
                   (metrics.Observe (Model rc) (ResolvedTargetModel rc)
                      (time.Seconds (time.Sub t%Z (RequestReceivedTimestamp rc))))
                   m
            else m)))).

(** Rewrites the request context and the collectors found after [reply] or
    [send] to those of the state handed to it. *)
Ltac framed :=
  match goal with
  | |- context [handlers.reply ?S ?v ?j ?r ?e ?s] =>
      let H1 := fresh in let H2 := fresh in
      destruct (reply_frame S v j r e s) as (H1 & H2 & _);
      rewrite ?H1, ?H2; clear H1 H2
  | |- context [handlers.send ?S ?v ?j ?r ?s] =>
      let H1 := fresh in let H2 := fresh in
      destruct (send_frame S v j r s) as (H1 & H2 & _);
      rewrite ?H1, ?H2; clear H1 H2
  end.

(** *** What one pass can do to the collectors *)

Lemma serve_collectors i req (st : State Server) :
  collectors (state_of (serve i req st)) = collectors st \/
  (is_RequestBody req = true /\
   exists rc, collectors (state_of (serve i req st)) = requested rc (collectors st)) \/
  (is_ResponseBody req = true /\
   exists rc,
     collectors (state_of (serve i req st)) = completed rc (now srv i) (collectors st)).
Proof.
  unfold handlers.serve, is_RequestBody, is_ResponseBody.
  destruct (Request req) as [[h|b|h|b|t|t]|]; [ | | | | by left ..].
  - destruct (HandleRequestHeaders _ req) as [rc resp]. cbv beta iota.
    framed. by left.
  - destruct (HandleRequestBody _ _ req) as [[[s rc] resp] err]. cbv beta iota.
    rewrite afterRequestBody_cases.
    destruct err; [cbv beta iota zeta; framed; by left|].
    destruct (metrics.registerMetrics (collectors st));
      [destruct (valid_labels _ _)|]; cbv beta iota zeta;
      try framed; cbn [state_of collectors]; [|by left..].
    right. left. split; [done|]. by exists rc.
  - destruct (HandleResponseHeaders _ _ req) as [[[s rc] resp] err]. cbv beta iota.
    framed. by left.
  - destruct (HandleResponseBody _ _ req) as [[[s rc] resp] err]. cbv beta iota.
    rewrite afterResponseBody_cases.
    destruct err; [cbv beta iota zeta; framed; by left|].
    destruct (ResponseComplete rc); [|cbv beta iota zeta; framed; by left].
    cbv zeta.
    destruct (metrics.registerMetrics (collectors st));
      [destruct (valid_labels _ _)|]; cbv beta iota zeta;
      try framed; cbn [state_of collectors]; [|by left..].
    right. right. split; [done|]. by exists rc.
Qed.

(** *** Induction over a run *)

Lemma loop_final_ind (P : State Server -> Prop) :
  (forall i req st, P st -> P (state_of (serve i req st))) ->
  forall msgs i st, P st -> P (final (loop i msgs st)).
Proof.
  intros Hstep msgs.
  induction msgs as [|req rest IH]; intros i st HP; simpl.
  - destruct (ctx_Err srv i); [done|]. by case_decide.
  - destruct (ctx_Err srv i); [done|].
    pose proof (Hstep i req st HP) as Hs.
    destruct (serve i req st) as [st'|err st'|st']; simpl in *;
      [by apply IH | done | done].
Qed.

Lemma Process_collectors_ind (P : metrics.State -> Prop) :
  (forall i req (st : State Server),
     P (collectors st) -> P (collectors (state_of (serve i req st)))) ->
  forall s m l, P m -> P (collectors (final (Process s m l))).
Proof.
  intros Hstep s m l Hm. unfold handlers.Process.
  by apply (loop_final_ind (fun st => P (collectors st))).
Qed.

(** *** Invariants of the collectors over a pass *)

Lemma serve_extends i req (st : State Server) :
  extends (collectors st) (collectors (state_of (serve i req st))).
Proof.
  destruct (serve_collectors i req st) as [->|[[_ [rc ->]]|[_ [rc ->]]]].
  - apply extends_refl.
  - unfold extends. simpl. repeat split; try done.
    + intros m t. rewrite count_Inc. lia.
    + intros. apply samples_Observe_prefix.
  - unfold extends. destruct (_ <? _); simpl; repeat split; try done;
      intros; apply samples_Observe_prefix.
Qed.

Lemma serve_requests_in_step i req (st : State Server) :
  requests_in_step (collectors st) ->
  requests_in_step (collectors (state_of (serve i req st))).
Proof.
  intros H.
  destruct (serve_collectors i req st) as [->|[[_ [rc ->]]|[_ [rc ->]]]]; [done| |].
  - intros m t. simpl. rewrite count_Inc, sample_count_Observe, (H m t).
    case_decide; lia.
  - intros m t. destruct (_ <? _); simpl; apply H.
Qed.

Lemma serve_responses_in_step i req (st : State Server) :
  responses_in_step (collectors st) ->
  responses_in_step (collectors (state_of (serve i req st))).
Proof.
  intros H.
  destruct (serve_collectors i req st) as [->|[[_ [rc ->]]|[_ [rc ->]]]]; [done| |].
  - intros m t. simpl. apply H.
  - intros m t. destruct (H m t) as (H1 & H2 & H3).
    destruct (_ <? _); simpl; rewrite !sample_count_Observe;
      case_decide; lia.
Qed.

Lemma serve_latencies_positive i req (st : State Server) :
  all_positive (metrics.requestLatencies (collectors st)) ->
  all_positive (metrics.requestLatencies (collectors (state_of (serve i req st)))).
Proof.
  intros H.
  destruct (serve_collectors i req st) as [->|[[_ [rc ->]]|[_ [rc ->]]]]; [done..|].
  destruct (Z.ltb_spec (RequestReceivedTimestamp rc) (now srv i)); simpl; [|done].
  apply all_positive_Observe; [|done]. by apply Seconds_Sub_positive.
Qed.

(** X7.  Over a whole run [Process] only adds to the collectors: no count
    goes down, every series keeps its old samples as a prefix, and the
    registration ([sync.Once] flag and registry) is not touched. *)
Theorem Process_extends (s : Server) (m : metrics.State) (l : klog.Log) :
  extends m (collectors (final (Process s m l))).
Proof.
  apply (Process_collectors_ind (fun m' => extends m m')).
  - intros i req st H. eapply extends_trans; [exact H | apply serve_extends].
  - apply extends_refl.
Qed.

(** X8.  The request counter and the request-size histogram stay in step
    over a run: if for every label pair the count equals the number of
    request-size samples before [Process], it does so after. *)
Theorem Process_requests_in_step (s : Server) (m : metrics.State) (l : klog.Log) :
  requests_in_step m ->
  requests_in_step (collectors (final (Process s m l))).
Proof.
  apply (Process_collectors_ind requests_in_step).
  intros i req st. apply serve_requests_in_step.
Qed.

(** X9.  The histograms fed at completion stay in step over a run: for
    every label pair the input-token, output-token and response-size
    histograms hold the same number of samples, and the latency histogram
    at most as many (it misses the completions that were not strictly
    after the receipt). *)
Theorem Process_responses_in_step (s : Server) (m : metrics.State) (l : klog.Log) :
  responses_in_step m ->
  responses_in_step (collectors (final (Process s m l))).
Proof.
  apply (Process_collectors_ind responses_in_step).
  intros i req st. apply serve_responses_in_step.
Qed.

(** X10.  [Process] never records a latency that is zero or negative: if
    all latency samples are strictly positive before a run, they are after
    it, whatever the clock and the handlers do. *)
Theorem Process_latencies_positive (s : Server) (m : metrics.State) (l : klog.Log) :
  all_positive (metrics.requestLatencies m) ->
  all_positive (metrics.requestLatencies (collectors (final (Process s m l)))).
Proof.
  apply (Process_collectors_ind (fun m' => all_positive (metrics.requestLatencies m'))).
  intros i req st. apply serve_latencies_positive.
Qed.

(** X11.  When a ResponseBody envelope completes the response, the
    bookkeeping of [Process] is [RecordRequestLatencies], then
    [RecordResponseSizes], then one call of [MonitorResponse] with the
    prompt and completion counts of the request context: the collectors
    after the pass are those these calls leave, and the pass panics
    exactly when one of them does. *)
Theorem completion_is_MonitorResponse (i : nat) (req : ProcessingRequest) (b : HttpBody)
    (st : State Server) s' rc' resp :
  Request req = Some (ProcessingRequest_ResponseBody b) ->
  HandleResponseBody (server st) (reqCtx st) req = (s', rc', resp, None) ->
  ResponseComplete rc' = true ->
  match
    r ← metrics.RecordRequestLatencies (Model rc') (ResolvedTargetModel rc')
          (RequestReceivedTimestamp rc') (now srv i) (collectors st) (log st);
    m1 ← metrics.RecordResponseSizes (Model rc') (ResolvedTargetModel rc')
           (ResponseSize rc') r.1.2;
    metrics.MonitorResponse (Model rc') (ResolvedTargetModel rc')
      (PromptTokens (Usage (Response rc'))) (CompletionTokens (Usage (Response rc')))
      m1
  with
  | Some m' =>
      is_panic (serve i req st) = false /\
      collectors (state_of (serve i req st)) = m'
  | None =>
      is_panic (serve i req st) = true /\
      collectors (state_of (serve i req st)) = collectors st
  end.
Proof.
  intros Hreq Hh Hdone.
  unfold handlers.serve. rewrite Hreq, Hh.
  rewrite afterResponseBody_cases, Hdone. cbv zeta.
  unfold metrics.RecordRequestLatencies, metrics.RecordResponseSizes,
    metrics.MonitorResponse, time.After.
  rewrite WithLabelValues_cases.
  destruct (metrics.registerMetrics (collectors st)) eqn:Hreg;
    [destruct (valid_labels _ _) eqn:Hv|];
    destruct (_ <? _); simpl;
    rewrite ?WithLabelValues_cases; simpl; rewrite ?Hreg, ?Hv; simpl;
    rewrite ?WithLabelValues_cases; simpl; rewrite ?Hreg, ?Hv; simpl;
    rewrite ?WithLabelValues_cases; simpl; rewrite ?Hreg, ?Hv; simpl;
    rewrite ?reply_no_panic, ?send_no_panic; try framed; done.
Qed.

(** *** Counting against the envelopes *)

Lemma serve_counts i req (st : State Server) :
  (metrics.total_count (metrics.requestCounter (collectors (state_of (serve i req st))))
   <= metrics.total_count (metrics.requestCounter (collectors st))
      + (if is_RequestBody req then 1 else 0))%N /\
  (metrics.total_samples (metrics.responseSizes (collectors (state_of (serve i req st))))
   <= metrics.total_samples (metrics.responseSizes (collectors st))
      + (if is_ResponseBody req then 1 else 0))%nat.
Proof.
  destruct (serve_collectors i req st)
    as [->|[[Hb [rc ->]]|[Hb [rc ->]]]].
  - destruct (is_RequestBody req), (is_ResponseBody req); lia.
  - rewrite Hb. simpl. rewrite total_count_Inc.
    destruct (is_ResponseBody req); lia.
  - rewrite Hb. destruct (_ <? _); simpl; rewrite total_samples_Observe;
      destruct (is_RequestBody req); lia.
Qed.

(** X26.  Over any stretch of the loop the request counter grows by at
    most the number of RequestBody envelopes there were to receive, and
    the response-size histogram by at most the number of ResponseBody
    envelopes: no request is counted twice, and no completion is recorded
    without a response body. *)
Theorem Process_counts_bounded (msgs : list ProcessingRequest) (i : nat)
    (st : State Server) :
  (metrics.total_count (metrics.requestCounter (collectors (final (loop i msgs st))))
   <= metrics.total_count (metrics.requestCounter (collectors st))
      + N.of_nat (length (filter (fun r => is_RequestBody r = true) msgs)))%N /\
  (metrics.total_samples (metrics.responseSizes (collectors (final (loop i msgs st))))
   <= metrics.total_samples (metrics.responseSizes (collectors st))
      + length (filter (fun r => is_ResponseBody r = true) msgs))%nat.
Proof.
  revert i st. induction msgs as [|req rest IH]; intros i st; simpl loop.
  - destruct (ctx_Err srv i); simpl; [lia|]. case_decide; simpl; lia.
  - rewrite !filter_cons.
    destruct (ctx_Err srv i); [simpl; lia|].
    destruct (serve_counts i req st) as [H1 H2].
    destruct (serve i req st) as [st'|err st'|st']; simpl in H1, H2.
    + destruct (IH (S i) st') as [H3 H4].
      destruct (is_RequestBody req), (is_ResponseBody req);
        repeat case_decide; try done; simpl in *; lia.
    + cbn [final].
      destruct (is_RequestBody req), (is_ResponseBody req);
        repeat case_decide; try done; simpl in *; lia.
    + cbn [final].
      destruct (is_RequestBody req), (is_ResponseBody req);
        repeat case_decide; try done; simpl in *; lia.
Qed.

(** *** Responses and results *)

(** X12.  [Process] calls [Send] at most once per envelope it receives:
    over any stretch of the loop, the responses handed to [Send] plus the
    envelopes left unread are no more than the envelopes there were. *)
Theorem Process_send_budget (msgs : list ProcessingRequest) (i : nat)
    (st : State Server) :
  (length (sent (final (loop i msgs st))) + length (unread (loop i msgs st))
   <= length (sent st) + length msgs)%nat.
Proof.
  revert i st. induction msgs as [|req rest IH]; intros i st; simpl.
  - destruct (ctx_Err srv i); simpl; [lia|]. case_decide; simpl; lia.
  - destruct (ctx_Err srv i); simpl; [lia|].
    pose proof (serve_sent_le Server HandleRequestHeaders HandleRequestBody
                  HandleResponseHeaders HandleResponseBody srv i req st) as Hs.
    destruct (serve i req st) as [st'|err st'|st']; simpl in *.
    + specialize (IH (S i) st'). lia.
    + lia.
    + lia.
Qed.





(** X14.  When [Recv] fails with an error other than [io.EOF], [Process]
    returns an error of code [Unknown] and leaves everything as it was:
    nothing is sent and no collector changes. *)
Theorem Process_Recv_error (i : nat) (st : State Server) :
  ctx_Err srv i = None ->
  closing srv <> io_EOF ->
  result (loop i [] st) = Some (status_error codes.Unknown) /\
  final (loop i [] st) = st.
Proof.
  intros Hc Hne. simpl. rewrite Hc. by rewrite decide_False.
Qed.

(** X15.  An envelope of one of the four handled variants whose handler
    returns no error makes [Process] hand exactly the handler's response to
    [Send], once; the loop then goes on with the next iteration, unless
    [Send] fails, in which case [Process] returns an error of code
    [Unknown] without receiving the remaining envelopes.  The one other
    course is a panic while the metrics are recorded, before anything is
    sent. *)
Theorem handled_without_error (i : nat) (req : ProcessingRequest)
    (rest : list ProcessingRequest) (st : State Server) :
  ctx_Err srv i = None ->
  is_handled req = true ->
  handler_error req st = None ->
  if is_panic (serve i req st) then
    sent (state_of (serve i req st)) = sent st /\
    loop i (req :: rest) st =
      {| result := None; final := state_of (serve i req st); unread := rest;
         panicked := true |}
  else
    exists st',
      sent st' = sent st ++ [handler_response i req st] /\
      loop i (req :: rest) st =
        match send_err srv i with
        | None => loop (S i) rest st'
        | Some _ =>
            {| result := Some (status_error codes.Unknown);
               final := add_log Server (klog.Errorf "send error %v") st';
               unread := rest;
               panicked := false |}
        end.
Proof.
  intros Hc Hh He. simpl. rewrite Hc.
  unfold handlers.serve, handlers.handler_error, handlers_seq.handler_response,
    is_handled in *.
  destruct (Request req) as [[h|b|h|b|t|t]|]; try discriminate.
  - destruct (HandleRequestHeaders _ req) as [rc resp]. cbv beta iota.
    unfold handlers.reply, handlers.send.
    destruct (send_err srv i); eexists; (split; [|reflexivity]); done.
  - destruct (HandleRequestBody _ _ req) as [[[s rc] resp] err].
    simpl in He. subst err. cbv beta iota.
    destruct (afterRequestBody None rc _) as [m [|]]; cbv beta iota zeta; [done|].
    unfold handlers.reply, handlers.send.
    destruct (send_err srv i); eexists; (split; [|reflexivity]); done.
  - destruct (HandleResponseHeaders _ _ req) as [[[s rc] resp] err].
    simpl in He. subst err. cbv beta iota.
    unfold handlers.reply, handlers.send.
    destruct (send_err srv i); eexists; (split; [|reflexivity]); done.
  - destruct (HandleResponseBody _ _ req) as [[[s rc] resp] err].
    simpl in He. subst err. cbv beta iota.
    destruct (afterResponseBody i None rc _ _) as [[[rc' m] l] [|]];
      cbv beta iota zeta; [done|].
    unfold handlers.reply, handlers.send.
    destruct (send_err srv i); eexists; (split; [|reflexivity]); done.
Qed.

End Process.

End handlers_more.

(** ** The tracing configuration and its set-up *)

Module tracing_facts.
Import tracing.

Section Tracing.

Variable ParseFloat : string -> option Q.
Variable otlptracegrpc_New resource_New otlploggrpc_New : string -> option terror.
Variable call : Cleanup -> option terror.

Local Abbreviation NewConfigFromEnv := (tracing.NewConfigFromEnv ParseFloat).
Local Abbreviation Initialize :=
  (tracing.Initialize otlptracegrpc_New resource_New otlploggrpc_New).
Local Abbreviation shutdown := (tracing.shutdown call).

(** *** The fields of the configuration, one by one *)

Lemma ParseBool_empty : strconv.ParseBool "" = None.
Proof. reflexivity. Qed.

Lemma NewConfigFromEnv_Enabled env :
  Enabled (NewConfigFromEnv env) =
  default false (strconv.ParseBool (os.Getenv env envOTELTracingEnabled)).
Proof.
  unfold tracing.NewConfigFromEnv. cbv zeta.
  repeat case_decide; repeat case_match; simpl; try done.
  all: match goal with H : os.Getenv _ _ = "" |- _ => rewrite H end; done.
Qed.

Lemma NewConfigFromEnv_CaptureEvent env :
  CaptureEvent (NewConfigFromEnv env) =
  default false (strconv.ParseBool (os.Getenv env envOTELCaptureEvent)).
Proof.
  unfold tracing.NewConfigFromEnv. cbv zeta.
  repeat case_decide; repeat case_match; simpl; try done.
  all: match goal with
       | H : os.Getenv _ envOTELCaptureEvent = "" |- _ => rewrite H
       end; done.
Qed.

Lemma NewConfigFromEnv_ExporterEndpoint env :
  ExporterEndpoint (NewConfigFromEnv env) =
  if decide (os.Getenv env envOTELExporterEndpoint = "")
  then "http://localhost:4317"
  else os.Getenv env envOTELExporterEndpoint.
Proof.
  unfold tracing.NewConfigFromEnv. cbv zeta.
  repeat case_decide; repeat case_match; simpl; done.
Qed.

Lemma NewConfigFromEnv_ServiceName env :
  ServiceName_ (NewConfigFromEnv env) =
  if decide (os.Getenv env envOTELServiceName = "")
  then ServiceName
  else os.Getenv env envOTELServiceName.
Proof.
  unfold tracing.NewConfigFromEnv. cbv zeta.
  repeat case_decide; repeat case_match; simpl; done.
Qed.

(** *** NewConfigFromEnv *)

(** X16.  Tracing is enabled exactly when OTEL_TRACING_ENABLED is set to
    one of the six spellings of true that [strconv.ParseBool] accepts;
    every other value, the ones that do not parse included, leaves it
    disabled.  The same holds for the capture of message contents and its
    variable. *)
Theorem NewConfigFromEnv_bools (env : gmap string string) :
  (Enabled (NewConfigFromEnv env) = true <->
   exists v, env !! envOTELTracingEnabled = Some v /\
             v ∈ ["1"; "t"; "T"; "TRUE"; "true"; "True"]) /\
  (CaptureEvent (NewConfigFromEnv env) = true <->
   exists v, env !! envOTELCaptureEvent = Some v /\
             v ∈ ["1"; "t"; "T"; "TRUE"; "true"; "True"]).
Proof.
  rewrite NewConfigFromEnv_Enabled, NewConfigFromEnv_CaptureEvent.
  unfold os.Getenv.
  split.
  - destruct (env !! envOTELTracingEnabled) as [v|]; simpl.
    + unfold strconv.ParseBool. repeat case_decide; simpl.
      * split; [intros _; by exists v | done].
      * split; [done | by intros (? & [= <-] & ?)].
      * split; [done | by intros (? & [= <-] & ?)].
    + split; [by vm_compute | by intros (? & ? & ?)].
  - destruct (env !! envOTELCaptureEvent) as [v|]; simpl.
    + unfold strconv.ParseBool. repeat case_decide; simpl.
      * split; [intros _; by exists v | done].
      * split; [done | by intros (? & [= <-] & ?)].
      * split; [done | by intros (? & [= <-] & ?)].
    + split; [by vm_compute | by intros (? & ? & ?)].
Qed.

(** X17.  The configuration depends on the environment only through what
    [os.Getenv] returns for the five variables: two environments that
    agree there give the same configuration.  So a variable set to the
    empty string counts as not set, and no other variable matters. *)
Theorem NewConfigFromEnv_reads (env1 env2 : gmap string string) :
  (forall k, k ∈ env_names -> os.Getenv env1 k = os.Getenv env2 k) ->
  NewConfigFromEnv env1 = NewConfigFromEnv env2.
Proof.
  intros H. unfold tracing.NewConfigFromEnv.
  rewrite (H envOTELTracingEnabled), (H envOTELCaptureEvent),
    (H envOTELExporterEndpoint), (H envOTELServiceName),
    (H envOTELSamplingRate); [done | unfold env_names; set_solver ..].
Qed.

(** X18.  Whatever the environment, the configuration has an exporter
    endpoint and a service name that are not empty. *)
Theorem NewConfigFromEnv_nonempty (env : gmap string string) :
  ExporterEndpoint (NewConfigFromEnv env) <> "" /\
  ServiceName_ (NewConfigFromEnv env) <> "".
Proof.
  rewrite NewConfigFromEnv_ExporterEndpoint, NewConfigFromEnv_ServiceName.
  split; case_decide; done.
Qed.

(** X19.  With none of the five variables set to a value that is not
    empty, the configuration is the default one: tracing and capture off,
    the endpoint http://localhost:4317, the rate 0.1 and the service name
    of the package. *)
Theorem NewConfigFromEnv_defaults (env : gmap string string) :
  (forall k, k ∈ env_names -> os.Getenv env k = "") ->
  NewConfigFromEnv env =
    {| Enabled := false;
       CaptureEvent := false;
       ExporterEndpoint := "http://localhost:4317";
       SamplingRate := 0.1%Q;
       ServiceName_ := "gateway-api-inference-extension" |}.
Proof.
  intros H. unfold tracing.NewConfigFromEnv.
  rewrite (H envOTELTracingEnabled), (H envOTELCaptureEvent),
    (H envOTELExporterEndpoint), (H envOTELServiceName),
    (H envOTELSamplingRate); [done | unfold env_names; set_solver ..].
Qed.

(** *** Initialize *)

(** X20.  [Initialize] sets up context propagation (trace context and
    baggage) in every case: with tracing disabled, on success, and when it
    returns an error. *)
Theorem Initialize_propagation (config : Config) (g : Globals) :
  TextMapPropagator_ (Initialize config g).1.1 = Some [TraceContext; Baggage].
Proof.
  unfold tracing.Initialize.
  destruct (Enabled config); simpl; [|done].
  destruct (otlptracegrpc_New _); [done|].
  destruct (resource_New _); [done|].
  by destruct (otlploggrpc_New _).
Qed.

(** X21.  [Initialize] returns either a shutdown function or an error,
    never both and never neither; when it returns an error, the tracer
    provider and the logger provider of the process are the ones there
    were before the call. *)
Theorem Initialize_error (config : Config) (g : Globals) :
  ((Initialize config g).1.2 = None <-> is_Some (Initialize config g).2) /\
  (is_Some (Initialize config g).2 ->
   TracerProvider_ (Initialize config g).1.1 = TracerProvider_ g /\
   LoggerProvider_ (Initialize config g).1.1 = LoggerProvider_ g).
Proof.
  unfold tracing.Initialize.
  destruct (Enabled config); simpl;
    [|split; [split; [done | by intros []] | by intros []]].
  destruct (otlptracegrpc_New _); simpl;
    [split; [split; [by eexists | done] | done]|].
  destruct (resource_New _); simpl;
    [split; [split; [by eexists | done] | done]|].
  destruct (otlploggrpc_New _); simpl;
    [split; [split; [by eexists | done] | done]|].
  split; [split; [done | by intros []] | by intros []].
Qed.

(** X22.  With tracing disabled [Initialize] creates nothing: it returns
    no error, leaves both providers as they were, and the shutdown
    function it returns calls no clean-up and returns nil. *)
Theorem Initialize_disabled (config : Config) (g : Globals) :
  Enabled config = false ->
  exists sd,
    Initialize config g =
      ({| TextMapPropagator_ := Some [TraceContext; Baggage];
          TracerProvider_ := TracerProvider_ g;
          LoggerProvider_ := LoggerProvider_ g |}, Some sd, None) /\
    shutdown sd = (None, [], sd).
Proof.
  intros H. unfold tracing.Initialize. rewrite H. simpl.
  eexists. split; reflexivity.
Qed.

(** X23.  With tracing enabled [Initialize] succeeds exactly when the trace
    exporter, the resource and the log exporter can all be created.  It
    then installs a tracer provider for the configured endpoint and
    service name, always with the sampler AlwaysSample, and a logger
    provider for the endpoint, and registers their two shutdown functions,
    the tracer provider's first. *)
Theorem Initialize_enabled (config : Config) (g : Globals) :
  Enabled config = true ->
  let tp := {| tp_endpoint := ExporterEndpoint config;
               tp_service_name := ServiceName_ config;
               tp_service_version := "1.0.0";
               tp_sampler := AlwaysSample |} in
  let lp := {| lp_endpoint := ExporterEndpoint config |} in
  ((Initialize config g).2 = None <->
   otlptracegrpc_New (ExporterEndpoint config) = None /\
   resource_New (ServiceName_ config) = None /\
   otlploggrpc_New (ExporterEndpoint config) = None) /\
  ((Initialize config g).2 = None ->
   TracerProvider_ (Initialize config g).1.1 = Some tp /\
   LoggerProvider_ (Initialize config g).1.1 = Some lp /\
   (Initialize config g).1.2 = Some {| shutdownFuncs := [tp_Shutdown tp; lp_Shutdown lp] |}).
Proof.
  intros H. cbv zeta. unfold tracing.Initialize. rewrite H. simpl.
  destruct (otlptracegrpc_New _); simpl; [split; [split; [done | by intros []] | done]|].
  destruct (resource_New _); simpl;
    [split; [split; [done | by intros (? & ? & ?)] | done]|].
  destruct (otlploggrpc_New _); simpl;
    [split; [split; [done | by intros (? & ? & ?)] | done]|].
  done.
Qed.

Lemma errors_Join_None (a b : option terror) :
  errors_Join [a; b] = None <-> a = None /\ b = None.
Proof. unfold errors_Join. destruct a, b; simpl; split; try done; by intros []. Qed.

Lemma error_leaves_Join (a b : option terror) :
  error_leaves (errors_Join [a; b]) = error_leaves a ++ error_leaves b.
Proof. destruct a, b; simpl; by rewrite ?app_nil_r. Qed.

(** The loop of the closure from any point on: what it has called, whether
    its error is nil, and what its error is made of. *)
Lemma shutdown_loop_from (fns : list Cleanup) : forall acc,
  let r := foldl (fun acc fn => (errors_Join [acc.1; call fn], acc.2 ++ [fn])) acc fns in
  r.2 = acc.2 ++ fns /\
  (r.1 = None <-> acc.1 = None /\ forall fn, fn ∈ fns -> call fn = None) /\
  error_leaves r.1 =
    error_leaves acc.1 ++ flat_map (fun fn => error_leaves (call fn)) fns.
Proof.
  induction fns as [|fn fns IH]; intros acc; cbv zeta.
  - simpl. rewrite !app_nil_r. split; [done|]. split; [|done].
    split; [intros ->; split; [done|] | by intros []].
    intros fn Hfn. by apply elem_of_nil in Hfn.
  - cbn [foldl].
    destruct (IH (errors_Join [acc.1; call fn], acc.2 ++ [fn])) as (H1 & H2 & H3).
    cbv zeta in H1, H2, H3. cbn [fst snd] in H1, H2, H3.
    rewrite H1, H2, H3, errors_Join_None, error_leaves_Join.
    split; [by rewrite <- app_assoc|]. split.
    + split.
      * intros [[-> Hfn] Hall]. split; [done|].
        intros fn' [->|?]%elem_of_cons; [done | by apply Hall].
      * intros [-> Hall]. split; [split; [done|] |].
        -- apply Hall. by left.
        -- intros fn' ?. apply Hall. by right.
    + simpl. by rewrite <- app_assoc.
Qed.

(** X24.  A call of the shutdown function calls every registered clean-up
    once, in the order of registration; the error it returns is made of
    the errors of the clean-ups, in that order, and is nil exactly when all
    of them return nil; it empties the registration, so that a second call
    calls nothing and returns nil. *)
Theorem shutdown_once (sd : Shutdown) :
  (shutdown sd).1.2 = shutdownFuncs sd /\
  error_leaves (shutdown sd).1.1 =
    flat_map (fun fn => error_leaves (call fn)) (shutdownFuncs sd) /\
  ((shutdown sd).1.1 = None <-> forall fn, fn ∈ shutdownFuncs sd -> call fn = None) /\
  shutdown (shutdown sd).2 = (None, [], (shutdown sd).2).
Proof.
  unfold tracing.shutdown, tracing.shutdown_loop. cbn [fst snd shutdownFuncs].
  destruct (shutdown_loop_from (shutdownFuncs sd) (None, [])) as (H1 & H2 & H3).
  cbv zeta in H1, H2, H3. cbn [fst snd] in H1, H2, H3.
  split; [exact H1|]. split; [exact H3|]. split; [|done].
  rewrite H2. split; [by intros [] | done].
Qed.

Lemma Getenv_insert_ne (env : gmap string string) k k' v :
  k <> k' -> os.Getenv (<[k := v]> env) k' = os.Getenv env k'.
Proof. intros H. unfold os.Getenv. by rewrite lookup_insert_ne. Qed.

(** X25.  Neither OTEL_SAMPLING_RATE nor the capture variable has any
    effect on the set-up: [Initialize] on the configuration read from the
    environment gives the same result whatever these two are set to. *)
Theorem Initialize_ignores_rate (env : gmap string string) (v : string)
    (g : Globals) :
  Initialize (NewConfigFromEnv (<[envOTELSamplingRate := v]> env)) g =
    Initialize (NewConfigFromEnv env) g /\
  Initialize (NewConfigFromEnv (<[envOTELCaptureEvent := v]> env)) g =
    Initialize (NewConfigFromEnv env) g.
Proof.
  unfold tracing.Initialize.
  rewrite !NewConfigFromEnv_Enabled, !NewConfigFromEnv_ExporterEndpoint,
    !NewConfigFromEnv_ServiceName.
  rewrite !Getenv_insert_ne by done.
  done.
Qed.

End Tracing.

End tracing_facts.

(** ** More runs on sample inputs *)

Module examples_more.
Import extProcPb handlers examples examples_seq metrics_seq handlers_seq.
Import metrics_more handlers_more tracing_facts.

Local Abbreviation loop :=
  (handlers.loop Server HandleRequestHeaders HandleRequestBody
     HandleResponseHeaders HandleResponseBody).
Local Abbreviation serve :=
  (handlers.serve Server HandleRequestHeaders HandleRequestBody
     HandleResponseHeaders HandleResponseBody).

Lemma requests_in_step_registered : requests_in_step registered.
Proof. intros m t. reflexivity. Qed.

Lemma responses_in_step_registered : responses_in_step registered.
Proof.
  intros m t. unfold metrics.sample_count, metrics.samples. simpl.
  rewrite lookup_empty. simpl. lia.
Qed.

Lemma Process_requests_in_step_witness :
  requests_in_step (collectors (final (serve_registered serving exchange))).
Proof.
  apply (Process_requests_in_step Server HandleRequestHeaders HandleRequestBody
           HandleResponseHeaders HandleResponseBody exchange serving registered []).
  apply requests_in_step_registered.
Defined.

Lemma Process_responses_in_step_witness :
  responses_in_step (collectors (final (serve_registered serving exchange))).
Proof.
  apply (Process_responses_in_step Server HandleRequestHeaders HandleRequestBody
           HandleResponseHeaders HandleResponseBody exchange serving registered []).
  apply responses_in_step_registered.
Defined.

Lemma Process_latencies_positive_witness :
  all_positive
    (metrics.requestLatencies (collectors (final (serve_registered serving exchange)))).
Proof.
  apply (Process_latencies_positive Server HandleRequestHeaders HandleRequestBody
           HandleResponseHeaders HandleResponseBody exchange serving registered []).
  apply all_positive_empty.
Defined.

Lemma completion_is_MonitorResponse_witness :
  exists m',
    (r ← metrics.RecordRequestLatencies "sql-lora" "sql-lora-1fdg2"
           (ticking 0) (ticking 3) (collectors served_registered)
           (log served_registered);
     m1 ← metrics.RecordResponseSizes "sql-lora" "sql-lora-1fdg2" 12 r.1.2;
     metrics.MonitorResponse "sql-lora" "sql-lora-1fdg2" 0 0 m1) = Some m' /\
    is_panic (serve exchange 3 responseEnd served_registered) = false /\
    collectors (state_of (serve exchange 3 responseEnd served_registered)) = m'.
Proof.
  eexists. split; [by vm_compute|].
  exact (completion_is_MonitorResponse Server HandleRequestHeaders HandleRequestBody
           HandleResponseHeaders HandleResponseBody exchange
           3 responseEnd {| Body := "data: [DONE]"; EndOfStream := true |}
           served_registered _ _ _ eq_refl eq_refl eq_refl).
Defined.


Lemma Process_Recv_error_witness :
  result (loop (broken_after [requestHeaders]) 1 [] (fresh serving))
    = Some (status_error codes.Unknown) /\
  final (loop (broken_after [requestHeaders]) 1 [] (fresh serving)) = fresh serving.
Proof.
  apply (Process_Recv_error Server HandleRequestHeaders HandleRequestBody
           HandleResponseHeaders HandleResponseBody (broken_after [requestHeaders])
           1 (fresh serving)); [reflexivity | discriminate].
Defined.

Lemma handled_without_error_witness :
  exists st',
    sent st' = sent served_registered ++ [Some (ProcessingResponse_ResponseBody pass)] /\
    loop exchange 3 [responseChunk; responseEnd] served_registered
    = loop exchange 4 [responseEnd] st'.
Proof.
  exact (handled_without_error Server HandleRequestHeaders HandleRequestBody
           HandleResponseHeaders HandleResponseBody exchange
           3 responseChunk [responseEnd] served_registered
           eq_refl eq_refl eq_refl).
Defined.

Lemma NewConfigFromEnv_reads_witness :
  tracing.NewConfigFromEnv parse_half env_blank
    = tracing.NewConfigFromEnv parse_half env_plain.
Proof.
  apply (NewConfigFromEnv_reads parse_half env_blank env_plain).
  intros k Hk. unfold tracing.env_names in Hk.
  repeat (apply elem_of_cons in Hk as [->|Hk]; [by vm_compute|]).
  by apply elem_of_nil in Hk.
Defined.

Lemma NewConfigFromEnv_defaults_witness :
  tracing.NewConfigFromEnv parse_half env_blank =
    {| tracing.Enabled := false;
       tracing.CaptureEvent := false;
       tracing.ExporterEndpoint := "http://localhost:4317";
       tracing.SamplingRate := 0.1%Q;
       tracing.ServiceName_ := "gateway-api-inference-extension" |}.
Proof.
  apply (NewConfigFromEnv_defaults parse_half env_blank).
  intros k Hk. unfold tracing.env_names in Hk.
  repeat (apply elem_of_cons in Hk as [->|Hk]; [by vm_compute|]).
  by apply elem_of_nil in Hk.
Defined.

Lemma Initialize_disabled_witness :
  exists sd,
    tracing.Initialize ok_New ok_New ok_New config_off no_globals =
      ({| tracing.TextMapPropagator_ := Some [tracing.TraceContext; tracing.Baggage];
          tracing.TracerProvider_ := None;
          tracing.LoggerProvider_ := None |}, Some sd, None) /\
    tracing.shutdown ok_call sd = (None, [], sd).
Proof.
  apply (Initialize_disabled ok_New ok_New ok_New ok_call config_off no_globals).
  by vm_compute.
Defined.

Lemma Initialize_enabled_witness :
  tracing.TracerProvider_
    (tracing.Initialize ok_New ok_New ok_New config_on no_globals).1.1
  = Some {| tracing.tp_endpoint := "http://collector:4317";
            tracing.tp_service_name := "gateway-api-inference-extension";
            tracing.tp_service_version := "1.0.0";
            tracing.tp_sampler := tracing.AlwaysSample |}.
Proof.
  pose proof (Initialize_enabled ok_New ok_New ok_New config_on no_globals
                ltac:(by vm_compute)) as [_ H].
  destruct (H ltac:(by vm_compute)) as (H1 & _ & _).
  rewrite H1. by vm_compute.
Defined.

End examples_more.
